(** * BitMexRest: a shallow embedding of [src/BitMexRest.py]

    The client builds signed HTTP requests for the BitMEX REST API and
    normalises bucketed trade data.  Python values are embedded as follows:

    - [str] is a list of Unicode code points ([pystr]);
    - [bytes] is a list of octets ([list Z], each in [0, 256));
    - [int] is [Z]; [float] is an IEEE-754 binary64 value ([pyfloat]);
    - a [dict] is the list of its items in insertion order;
    - a raised exception is the [Raise] branch of [result];
    - the module's global namespace is a finite map [g] from names to what
      they are bound to; every use of a global name in the source is a
      lookup in [g], and [module_globals] is the namespace that the import
      lines of the source build;
    - what the code reads from outside (clock, local time zone, the
      exchange's answers) is a [world]; what it leaves behind (lines
      printed, requests sent) is a [state].

    The library functions the source calls are modelled from their
    documentation and from CPython: [hmac] and [hashlib.sha256] from
    RFC 2104 and FIPS 180-4, [json.dumps] with its default arguments,
    [datetime.fromisoformat] on the format that [datetime.isoformat] emits
    (the only one accepted before Python 3.11), [datetime.timestamp] and
    float arithmetic in binary64, and the exception hierarchy of
    [requests.exceptions] (version 2.27 or later, where [response.json()]
    raises [requests.exceptions.JSONDecodeError]). *)

From Stdlib Require Import ZArith List String Ascii Bool Lia DecimalString.
From Stdlib Require Import DecimalPos DecimalZ.
From stdpp Require Import base option list gmap strings.

Local Open Scope Z_scope.

(** ** Strings *)

(** A Python [str]: its code points, in order. *)
Definition pystr := list Z.

(** An ASCII literal of the source, as a [pystr]. *)
Definition lit (s : string) : pystr :=
  (fun a => Z.of_N (N_of_ascii a)) <$> list_ascii_of_string s.

(** The decimal text of an [int]: what [str(n)] returns, when it returns. *)
Definition str_int (n : Z) : pystr :=
  lit (NilZero.string_of_int (Z.to_int n)).

(** ** Exceptions and results *)

(** The exception classes of [requests.exceptions]. *)
Inductive requests_exc : Type :=
| RequestException
| InvalidJSONError
| JSONDecodeError
| HTTPError
| ConnectionError
| ProxyError
| SSLError
| Timeout
| ConnectTimeout
| ReadTimeout
| URLRequired
| TooManyRedirects
| MissingSchema
| InvalidSchema
| InvalidURL
| InvalidHeader
| InvalidProxyURL
| ChunkedEncodingError
| ContentDecodingError
| StreamConsumedError
| RetryError
| UnrewindableBodyError.

Inductive exn : Type :=
| NameError (name : string)
| AttributeError (attr : string)
| TypeError (what : string)
| ValueError (what : string)
| KeyError (key : pystr)
| UnicodeEncodeError (codepoint : Z)
| OverflowError
| RecursionError
| RequestsError (c : requests_exc)
| Raised (cls : string) (msg : pystr) (cause : exn).

Inductive result (A : Type) : Type :=
| Return (a : A)
| Raise (e : exn).
Arguments Return {A} a.
Arguments Raise {A} e.

Definition bind {A B} (r : result A) (k : A -> result B) : result B :=
  match r with
  | Return a => k a
  | Raise e => Raise e
  end.

Notation "x <- r ;; k" := (bind r (fun x => k))
  (at level 100, r at next level, right associativity).
Notation "r ;;; k" := (bind r (fun _ => k))
  (at level 100, right associativity).

(** ** [str] of an [int] *)

(** The interpreter's default for [sys.int_max_str_digits]. *)
Definition int_max_str_digits : Z := 4300.

(** The least number of more digits than that, [10 ^ 4300], written out. *)
Definition str_bound : Z := Eval vm_compute in 10 ^ int_max_str_digits.

(** The [int] has no more decimal digits than the limit. *)
Definition fits_str (n : Z) : bool := Z.abs n <? str_bound.

(** [str(n)], and the formatting of [n] in an f-string: a longer [int]
    raises [ValueError]. *)
Definition str (n : Z) : result pystr :=
  if fits_str n then Return (str_int n)
  else Raise (ValueError "Exceeds the limit (4300 digits) for integer string conversion").

(** ** The module's global namespace *)

Inductive binding : Type :=
| Module (name : string)                (* import name *)
| Member (module name : string)         (* from module import name *)
| ExcClass (name : string).             (* an exception class *)

#[global] Instance binding_eq_dec : EqDecision binding.
Proof. solve_decision. Defined.

(** Loading a global name: an unbound name raises [NameError]. *)
Definition load (g : gmap string binding) (name : string) : result binding :=
  match g !! name with
  | Some b => Return b
  | None => Raise (NameError name)
  end.

(** [name.attr] where the source expects [name] to be the module [name]. *)
Definition load_module_attr (g : gmap string binding) (name attr : string)
  : result unit :=
  b <- load g name ;;
  if decide (b = Module name) then Return tt else Raise (AttributeError attr).

(** [name] where the source expects what [from module import name] binds. *)
Definition load_member (g : gmap string binding) (module name : string)
  : result unit :=
  b <- load g name ;;
  if decide (b = Member module name) then Return tt
  else Raise (AttributeError name).

(** Lines 1-4 of the source: the names the module imports.  There is no
    [import hmac], and no definition or import of the two [Exchange...]
    exception classes. *)
Definition module_globals : gmap string binding :=
  <["json" := Module "json"]>
  (<["hashlib" := Module "hashlib"]>
  (<["requests" := Module "requests"]>
  (<["datetime" := Member "datetime" "datetime"]>
  (<["timezone" := Member "datetime" "timezone"]> ∅)))).

(** ** [bytes(s, 'utf8')] *)

Definition utf8_char (c : Z) : result (list Z) :=
  if c <? 0 then Raise (UnicodeEncodeError c)
  else if c <? 0x80 then Return [c]
  else if c <? 0x800 then
    Return [Z.lor 0xC0 (Z.shiftr c 6); Z.lor 0x80 (Z.land c 0x3F)]
  else if c <? 0x10000 then
    if (0xD800 <=? c) && (c <=? 0xDFFF) then Raise (UnicodeEncodeError c)
    else Return [Z.lor 0xE0 (Z.shiftr c 12);
                 Z.lor 0x80 (Z.land (Z.shiftr c 6) 0x3F);
                 Z.lor 0x80 (Z.land c 0x3F)]
  else if c <? 0x110000 then
    Return [Z.lor 0xF0 (Z.shiftr c 18);
            Z.lor 0x80 (Z.land (Z.shiftr c 12) 0x3F);
            Z.lor 0x80 (Z.land (Z.shiftr c 6) 0x3F);
            Z.lor 0x80 (Z.land c 0x3F)]
  else Raise (UnicodeEncodeError c).

Fixpoint bytes_utf8 (s : pystr) : result (list Z) :=
  match s with
  | [] => Return []
  | c :: s' =>
      b <- utf8_char c ;;
      bs <- bytes_utf8 s' ;;
      Return (b ++ bs)
  end.

(** ** SHA-256 (FIPS 180-4) and HMAC (RFC 2104), as [hashlib] and [hmac]
    compute them *)

Module SHA256.

Definition wrap (x : Z) : Z := x mod 2 ^ 32.
Definition add (x y : Z) : Z := wrap (x + y).
Definition rotr (n x : Z) : Z :=
  Z.lor (Z.shiftr x n) (wrap (Z.shiftl x (32 - n))).
Definition inv (x : Z) : Z := Z.lxor x (2 ^ 32 - 1).

Definition ch (x y z : Z) : Z := Z.lxor (Z.land x y) (Z.land (inv x) z).
Definition maj (x y z : Z) : Z :=
  Z.lxor (Z.lxor (Z.land x y) (Z.land x z)) (Z.land y z).
Definition bsig0 (x : Z) : Z :=
  Z.lxor (Z.lxor (rotr 2 x) (rotr 13 x)) (rotr 22 x).
Definition bsig1 (x : Z) : Z :=
  Z.lxor (Z.lxor (rotr 6 x) (rotr 11 x)) (rotr 25 x).
Definition ssig0 (x : Z) : Z :=
  Z.lxor (Z.lxor (rotr 7 x) (rotr 18 x)) (Z.shiftr x 3).
Definition ssig1 (x : Z) : Z :=
  Z.lxor (Z.lxor (rotr 17 x) (rotr 19 x)) (Z.shiftr x 10).

(** The first sixty-four primes. *)
Definition primes : list Z :=
  [2; 3; 5; 7; 11; 13; 17; 19; 23; 29; 31; 37; 41; 43; 47; 53;
   59; 61; 67; 71; 73; 79; 83; 89; 97; 101; 103; 107; 109; 113; 127; 131;
   137; 139; 149; 151; 157; 163; 167; 173; 179; 181; 191; 193; 197; 199;
   211; 223; 227; 229; 233; 239; 241; 251; 257; 263; 269; 271; 277; 281;
   283; 293; 307; 311].

(** Integer cube root, by bisection on [lo <= root < hi]. *)
Fixpoint cbrt_between (steps : nat) (lo hi n : Z) : Z :=
  match steps with
  | O => lo
  | S k =>
      let mid := (lo + hi) / 2 in
      if mid * mid * mid <=? n then cbrt_between k mid hi n
      else cbrt_between k lo mid n
  end.
Definition cbrt (n : Z) : Z := cbrt_between 48 0 (2 ^ 36) n.

(** Round constants: the first 32 bits of the fractional parts of the cube
    roots of the primes; initial state: the same of the square roots of
    the first eight. *)
Definition K : list Z :=
  Eval vm_compute in map (fun p => wrap (cbrt (p * 2 ^ 96))) primes.
Definition H0 : list Z :=
  Eval vm_compute in map (fun p => wrap (Z.sqrt (p * 2 ^ 64))) (firstn 8 primes).

(** Padding: a one bit, zeros up to 56 mod 64, the bit length on 8 octets. *)
Definition be_bytes (width : nat) (x : Z) : list Z :=
  map (fun i => Z.land (Z.shiftr x (8 * Z.of_nat (width - 1 - i))) 0xFF)
      (seq 0 width).
Definition pad (msg : list Z) : list Z :=
  let len := Z.of_nat (length msg) in
  msg ++ [0x80] ++ repeat 0 (Z.to_nat ((55 - len) mod 64))
      ++ be_bytes 8 (8 * len).

Fixpoint be_words (n : nat) (bs : list Z) : list Z :=
  match n with
  | O => []
  | S k =>
      fold_left (fun acc b => acc * 256 + b) (firstn 4 bs) 0
        :: be_words k (skipn 4 bs)
  end.

(** The message schedule of one block. *)
Fixpoint schedule (n : nat) (w : list Z) : list Z :=
  match n with
  | O => w
  | S k =>
      let t := length w in
      let at_ (d : nat) := nth (t - d) w 0 in
      schedule k (w ++ [add (add (ssig1 (at_ 2%nat)) (at_ 7%nat))
                            (add (ssig0 (at_ 15%nat)) (at_ 16%nat))])
  end.

Record regs := Regs { ra : Z; rb : Z; rc : Z; rd : Z;
                      re : Z; rf : Z; rg : Z; rh : Z }.

Definition round (s : regs) (kw : Z * Z) : regs :=
  let t1 := add (add (add (rh s) (bsig1 (re s))) (ch (re s) (rf s) (rg s)))
                (add (fst kw) (snd kw)) in
  let t2 := add (bsig0 (ra s)) (maj (ra s) (rb s) (rc s)) in
  Regs (add t1 t2) (ra s) (rb s) (rc s) (add (rd s) t1) (re s) (rf s) (rg s).

Definition of_list (h : list Z) : regs :=
  Regs (nth 0 h 0) (nth 1 h 0) (nth 2 h 0) (nth 3 h 0)
       (nth 4 h 0) (nth 5 h 0) (nth 6 h 0) (nth 7 h 0).
Definition to_list (s : regs) : list Z :=
  [ra s; rb s; rc s; rd s; re s; rf s; rg s; rh s].

Definition compress (h : list Z) (block : list Z) : list Z :=
  let w := schedule 48 (be_words 16 block) in
  let s := fold_left round (combine K w) (of_list h) in
  map (fun p => add (fst p) (snd p)) (combine h (to_list s)).

Fixpoint blocks (n : nat) (bs : list Z) (h : list Z) : list Z :=
  match n with
  | O => h
  | S k => blocks k (skipn 64 bs) (compress h (firstn 64 bs))
  end.

(** The 32-octet digest of [msg]. *)
Definition digest (msg : list Z) : list Z :=
  let p := pad msg in
  flat_map (be_bytes 4) (blocks (length p / 64) p H0).

End SHA256.

(** [hmac.new(key, msg, digestmod=hashlib.sha256).digest()] *)
Definition hmac_sha256 (key msg : list Z) : list Z :=
  let k := if (64 <? length key)%nat then SHA256.digest key else key in
  let k := k ++ repeat 0 (64 - length k) in
  SHA256.digest (map (Z.lxor 0x5C) k
                 ++ SHA256.digest (map (Z.lxor 0x36) k ++ msg)).

(** [.hexdigest()]: two lowercase hexadecimal digits per octet. *)
Definition hex_digit (d : Z) : Z := if d <? 10 then 48 + d else 87 + d.
Definition hexlify (bs : list Z) : pystr :=
  flat_map (fun b => [hex_digit (b / 16); hex_digit (b mod 16)]) bs.

(** ** [generate_signature] (lines 28-38) *)

Definition generate_signature (g : gmap string binding)
    (secret verb url : pystr) (nonce : Z) (data : pystr) : result pystr :=
  n <- str nonce ;;
  let message := verb ++ url ++ n ++ data in
  load_module_attr g "hmac" "new" ;;;
  key <- bytes_utf8 secret ;;
  msg <- bytes_utf8 message ;;
  load_module_attr g "hashlib" "sha256" ;;;
  Return (hexlify (hmac_sha256 key msg)).

(** ** [float]: IEEE-754 binary64, round to nearest, ties to even *)

(** A finite value is [m * 2 ^ e]. *)
Inductive pyfloat : Type :=
| Finite (m e : Z)
| Infinite (negative : bool)
| NaN.

Module Float.

(** [floor (log2 (n / d))] for positive [n] and [d]. *)
Definition floor_log2 (n d : Z) : Z :=
  let k := Z.log2 n - Z.log2 d in
  if 0 <=? k then (if n <? d * 2 ^ k then k - 1 else k)
  else (if n * 2 ^ (- k) <? d then k - 1 else k).

(** The integer nearest to [n / d] ([d > 0]), ties to the even one. *)
Definition nearest_even (n d : Z) : Z :=
  let q := n / d in
  let r := n mod d in
  if 2 * r <? d then q
  else if d <? 2 * r then q + 1
  else if Z.even q then q else q + 1.

(** The binary64 value nearest to [n / d] ([d > 0]): 53 significant bits,
    exponents from -1074, overflow to infinity. *)
Definition of_ratio (n d : Z) : pyfloat :=
  if n =? 0 then Finite 0 0
  else
    let a := Z.abs n in
    let k := floor_log2 a d in
    let e := Z.max (k - 52) (-1074) in
    let m := if 0 <=? e then nearest_even a (d * 2 ^ e)
             else nearest_even (a * 2 ^ (- e)) d in
    if (1024 <=? k) || ((k =? 1023) && (m =? 2 ^ 53))
    then Infinite (n <? 0)
    else Finite (Z.sgn n * m) e.

Definition of_dyadic (m e : Z) : pyfloat :=
  if 0 <=? e then of_ratio (m * 2 ^ e) 1 else of_ratio m (2 ^ (- e)).

(** [float(n)] *)
Definition of_int (n : Z) : result pyfloat :=
  match of_ratio n 1 with
  | Infinite _ => Raise OverflowError
  | x => Return x
  end.

(** [a / b] on two [int]s, [b > 0]: the quotient, correctly rounded. *)
Definition truediv_int (a b : Z) : result pyfloat :=
  match of_ratio a b with
  | Infinite _ => Raise OverflowError
  | x => Return x
  end.

Definition mul (x y : pyfloat) : pyfloat :=
  match x, y with
  | NaN, _ | _, NaN => NaN
  | Finite m1 e1, Finite m2 e2 => of_dyadic (m1 * m2) (e1 + e2)
  | Infinite s, Finite m _ | Finite m _, Infinite s =>
      if m =? 0 then NaN else Infinite (xorb s (m <? 0))
  | Infinite s1, Infinite s2 => Infinite (xorb s1 s2)
  end.

Definition add (x y : pyfloat) : pyfloat :=
  match x, y with
  | NaN, _ | _, NaN => NaN
  | Finite m1 e1, Finite m2 e2 =>
      let e := Z.min e1 e2 in
      of_dyadic (m1 * 2 ^ (e1 - e) + m2 * 2 ^ (e2 - e)) e
  | Infinite s, Finite _ _ | Finite _ _, Infinite s => Infinite s
  | Infinite s1, Infinite s2 => if eqb s1 s2 then Infinite s1 else NaN
  end.

(** [int(x)]: truncation towards zero. *)
Definition to_int (x : pyfloat) : result Z :=
  match x with
  | Finite m e => Return (if 0 <=? e then m * 2 ^ e else Z.quot m (2 ^ (- e)))
  | Infinite _ => Raise OverflowError
  | NaN => Raise (ValueError "cannot convert float NaN to integer")
  end.

End Float.

(** ** [datetime] *)

(** An offset from UTC is kept in microseconds; [None] is a naive datetime. *)
Record datetime : Type := Datetime {
  year : Z; month : Z; day : Z;
  hour : Z; minute : Z; second : Z; microsecond : Z;
  tzinfo : option Z
}.

Module DT.

Definition is_leap (y : Z) : bool :=
  (y mod 4 =? 0) && (negb (y mod 100 =? 0) || (y mod 400 =? 0)).

Definition days_before_year (y : Z) : Z :=
  let p := y - 1 in p * 365 + p / 4 - p / 100 + p / 400.

Definition days_in_month (y m : Z) : Z :=
  if (m =? 2) && is_leap y then 29
  else nth (Z.to_nat m) [0; 31; 28; 31; 30; 31; 30; 31; 31; 30; 31; 30; 31] 0.

Definition days_before_month (y m : Z) : Z :=
  nth (Z.to_nat m) [0; 0; 31; 59; 90; 120; 151; 181; 212; 243; 273; 304; 334] 0
  + (if (2 <? m) && is_leap y then 1 else 0).

(** Proleptic Gregorian ordinal: 1 is 0001-01-01. *)
Definition ymd2ord (y m d : Z) : Z :=
  days_before_year y + days_before_month y m + d.

(** Microseconds between 1970-01-01T00:00:00 and the wall-clock fields. *)
Definition wall_us (dt : datetime) : Z :=
  (((ymd2ord (year dt) (month dt) (day dt) - 719163) * 86400
    + hour dt * 3600 + minute dt * 60 + second dt) * 1000000)
  + microsecond dt.

(** *** [datetime.fromisoformat], on the format [datetime.isoformat] emits:
    [YYYY-MM-DD[*HH[:MM[:SS[.fff[fff]]]][+HH:MM[:SS[.ffffff]]]]] *)

Definition digit (c : Z) : option Z :=
  if (48 <=? c) && (c <=? 57) then Some (c - 48) else None.

Fixpoint digits (s : pystr) (acc : Z) : option Z :=
  match s with
  | [] => Some acc
  | c :: s' => d ← digit c; digits s' (acc * 10 + d)
  end.

Definition parse_date (s : pystr) : option (Z * Z * Z) :=
  match s with
  | [y1; y2; y3; y4; s1; m1; m2; s2; d1; d2] =>
      if (s1 =? 45) && (s2 =? 45) then
        y ← digits [y1; y2; y3; y4] 0;
        m ← digits [m1; m2] 0;
        d ← digits [d1; d2] 0;
        Some (y, m, d)
      else None
  | _ => None
  end.

Definition parse_fraction (f : pystr) : option Z :=
  match f with
  | [] => Some 0
  | dot :: ds =>
      if dot =? 46 then
        if (length ds =? 3)%nat then n ← digits ds 0; Some (n * 1000)
        else if (length ds =? 6)%nat then digits ds 0
        else None
      else None
  end.

Definition parse_hh_mm_ss_ff (t : pystr) : option (Z * Z * Z * Z) :=
  match t with
  | [h1; h2] => h ← digits [h1; h2] 0; Some (h, 0, 0, 0)
  | [h1; h2; c1; m1; m2] =>
      if c1 =? 58 then
        h ← digits [h1; h2] 0; m ← digits [m1; m2] 0; Some (h, m, 0, 0)
      else None
  | h1 :: h2 :: c1 :: m1 :: m2 :: c2 :: s1 :: s2 :: f =>
      if (c1 =? 58) && (c2 =? 58) then
        h ← digits [h1; h2] 0; m ← digits [m1; m2] 0;
        s ← digits [s1; s2] 0; us ← parse_fraction f;
        Some (h, m, s, us)
      else None
  | _ => None
  end.

(** Splits a time string at its first [+] or [-]: the time, and the sign
    and text of the offset when there is one. *)
Fixpoint split_offset (t : pystr) : pystr * option (Z * pystr) :=
  match t with
  | [] => ([], None)
  | c :: t' =>
      if c =? 43 then ([], Some (1, t'))
      else if c =? 45 then ([], Some (-1, t'))
      else let '(hd, tz) := split_offset t' in (c :: hd, tz)
  end.

Definition parse_offset (sign : Z) (tz : pystr) : option Z :=
  if (length tz =? 5)%nat || (length tz =? 8)%nat || (length tz =? 15)%nat
  then
    '(h, m, s, us) ← parse_hh_mm_ss_ff tz;
    let seconds := h * 3600 + m * 60 + s in
    (* an offset of no whole second is UTC, whatever its microseconds *)
    if seconds =? 0 then Some 0
    else
      let off := sign * (seconds * 1000000 + us) in
      if (-86400000000 <? off) && (off <? 86400000000) then Some off else None
  else None.

Definition parse_time (t : pystr) : option (Z * Z * Z * Z * option Z) :=
  let '(hd, tz) := split_offset t in
  '(h, m, s, us) ← parse_hh_mm_ss_ff hd;
  match tz with
  | None => Some (h, m, s, us, None)
  | Some (sign, z) => off ← parse_offset sign z; Some (h, m, s, us, Some off)
  end.

(** The range checks of the [datetime] constructor. *)
Definition valid (dt : datetime) : bool :=
  (1 <=? year dt) && (year dt <=? 9999)
  && (1 <=? month dt) && (month dt <=? 12)
  && (1 <=? day dt) && (day dt <=? days_in_month (year dt) (month dt))
  && (hour dt <? 24) && (minute dt <? 60) && (second dt <? 60).

Definition fromisoformat (s : pystr) : result datetime :=
  let parsed :=
    '(y, m, d) ← parse_date (take 10 s);
    match drop 10 s with
    | [] => Some (Datetime y m d 0 0 0 0 None)
    | _ :: t =>
        '(hh, mm, ss, us, tz) ← parse_time t;
        Some (Datetime y m d hh mm ss us tz)
    end in
  match parsed with
  | Some dt =>
      if valid dt then Return dt
      else Raise (ValueError "field out of range")
  | None => Raise (ValueError "Invalid isoformat string")
  end.

(** *** [datetime.timestamp] *)

(** The POSIX time of a naive datetime, as [datetime._mktime] solves
    [t = local u] for [u] ([fold = 0]); [local] maps a POSIX time to the
    local wall-clock time of the process's zone, both in seconds. *)
Definition mktime (local : Z -> Z) (dt : datetime) : Z :=
  let t := wall_us dt / 1000000 in
  let a := local t - t in
  let u1 := t - a in
  let t1 := local u1 in
  let other (b : Z) :=
    let u2 := t - b in
    if local u2 =? t then u2
    else if t1 =? t then u1
    else Z.max u1 u2 in
  if t1 =? t then
    let u2 := u1 - 86400 in
    let b := local u2 - u2 in
    if a =? b then u1 else other b
  else other (t1 - u1).

Definition timestamp (local : Z -> Z) (dt : datetime) : result pyfloat :=
  match tzinfo dt with
  | None =>
      s <- Float.of_int (mktime local dt) ;;
      f <- Float.truediv_int (microsecond dt) 1000000 ;;
      Return (Float.add s f)
  | Some off => Float.truediv_int (wall_us dt - off) 1000000
  end.

End DT.

(** ** Python values: what [json] reads and writes *)

#[local] Set Warnings "-register-all".
Inductive pyval : Type :=
| PNone
| PBool (b : bool)
| PInt (n : Z)
| PFloat (x : pyfloat)
| PStr (s : pystr)
| PList (l : list pyval)
| PDict (d : list (pystr * pyval)).     (* items in insertion order *)

Fixpoint dict_lookup {V} (d : list (pystr * V)) (k : pystr) : option V :=
  match d with
  | [] => None
  | (k', v) :: d' => if decide (k' = k) then Some v else dict_lookup d' k
  end.

(** [v[k]] for a [str] key. *)
Definition getitem (v : pyval) (k : pystr) : result pyval :=
  match v with
  | PDict d =>
      match dict_lookup d k with
      | Some x => Return x
      | None => Raise (KeyError k)
      end
  | PStr _ => Raise (TypeError "string indices must be integers")
  | PList _ => Raise (TypeError "list indices must be integers or slices")
  | _ => Raise (TypeError "object is not subscriptable")
  end.

(** [for item in v]: a dict yields its keys, a str its characters. *)
Definition iterate (v : pyval) : result (list pyval) :=
  match v with
  | PList l => Return l
  | PDict d => Return (map (fun kv => PStr (fst kv)) d)
  | PStr s => Return (map (fun c => PStr [c]) s)
  | _ => Raise (TypeError "object is not iterable")
  end.

(** [s.replace(old, new)] for a one-character [old]. *)
Definition replace (old : Z) (new : pystr) (s : pystr) : pystr :=
  flat_map (fun c => if c =? old then new else [c]) s.

(** ** [json.dumps] with its defaults ([ensure_ascii], separators [', ']
    and [': ']) *)

Module Json.

Definition hex4 (n : Z) : pystr :=
  [hex_digit (n / 4096 mod 16); hex_digit (n / 256 mod 16);
   hex_digit (n / 16 mod 16); hex_digit (n mod 16)].

(** One character of a string, escaped: a backslash is 92, a quote 34. *)
Definition escape_char (c : Z) : pystr :=
  if c =? 34 then [92; 34]
  else if c =? 92 then [92; 92]
  else if c =? 10 then [92; 110]
  else if c =? 13 then [92; 114]
  else if c =? 9 then [92; 116]
  else if c =? 8 then [92; 98]
  else if c =? 12 then [92; 102]
  else if (32 <=? c) && (c <=? 126) then [c]
  else if c <? 0x10000 then [92; 117] ++ hex4 c
  else
    let n := c - 0x10000 in
    [92; 117] ++ hex4 (Z.lor 0xD800 (Z.land (Z.shiftr n 10) 0x3FF))
    ++ [92; 117] ++ hex4 (Z.lor 0xDC00 (Z.land n 0x3FF)).

Definition encode_str (s : pystr) : pystr :=
  [34] ++ flat_map escape_char s ++ [34].

Fixpoint join (sep : pystr) (parts : list pystr) : pystr :=
  match parts with
  | [] => []
  | [p] => p
  | p :: rest => p ++ sep ++ join sep rest
  end.

(** The text [json.dumps] returns, when it returns; [repr] is
    [float.__repr__] on finite values. *)
Fixpoint dumps (repr : pyfloat -> pystr) (v : pyval) : pystr :=
  match v with
  | PNone => lit "null"
  | PBool b => if b then lit "true" else lit "false"
  | PInt n => str_int n
  | PFloat NaN => lit "NaN"
  | PFloat (Infinite s) => if s then lit "-Infinity" else lit "Infinity"
  | PFloat x => repr x
  | PStr s => encode_str s
  | PList l => [91] ++ join (lit ", ") (map (dumps repr) l) ++ [93]
  | PDict d =>
      [123]
      ++ join (lit ", ")
           (map (fun kv => encode_str (fst kv) ++ lit ": " ++ dumps repr (snd kv)) d)
      ++ [125]
  end.

(** What makes [json.dumps] raise, in the order in which the encoder meets
    it, going through the value depth first and from left to right: an
    [int] too long for [str] raises [ValueError], and a list or dict nested
    deeper than the [room] the interpreter's stack leaves raises
    [RecursionError]. *)
Fixpoint guard (room : nat) (v : pyval) : result unit :=
  match v with
  | PInt n => str n ;;; Return tt
  | PList l =>
      match room with
      | O => Raise RecursionError
      | S room' =>
          (fix each (l : list pyval) : result unit :=
             match l with
             | [] => Return tt
             | x :: l' => guard room' x ;;; each l'
             end) l
      end
  | PDict d =>
      match room with
      | O => Raise RecursionError
      | S room' =>
          (fix each (d : list (pystr * pyval)) : result unit :=
             match d with
             | [] => Return tt
             | kv :: d' => guard room' (snd kv) ;;; each d'
             end) d
      end
  | _ => Return tt
  end.

End Json.

(** ** The HTTP transport and the process's environment *)

Record request : Type := Request {
  method : pystr;
  url : pystr;
  headers : option (list (pystr * pystr));
  params : option (list (pystr * pyval));
  data : option pystr;
  timeout : option Z
}.

(** [body_json] is what [response.json()] parses, when the body is JSON. *)
Record response : Type := Response {
  status_code : Z;
  text : pystr;
  body_json : option pyval
}.

Definition response_json (r : response) : result pyval :=
  match body_json r with
  | Some v => Return v
  | None => Raise (RequestsError JSONDecodeError)
  end.

(** What the code reads from outside: the wall clock, the local time zone,
    the exchange behind [requests], [float.__repr__], and the room the
    interpreter's stack leaves to [json.dumps]. *)
Record world : Type := World {
  now : datetime;                      (* fields of [datetime.now(timezone.utc)] *)
  localtime : Z -> Z;                  (* POSIX seconds to local wall-clock seconds *)
  http : request -> result response;
  float_repr : pyfloat -> pystr;
  json_depth : nat                     (* nesting [json.dumps] can still enter *)
}.

(** What the code leaves behind: the lines printed and the requests sent. *)
Record state : Type := State {
  stdout : list pystr;
  wire : list request
}.

Definition M (A : Type) : Type := state -> result A * state.

Definition ret {A} (a : A) : M A := fun st => (Return a, st).
Definition lift {A} (r : result A) : M A := fun st => (r, st).
Definition raise {A} (e : exn) : M A := fun st => (Raise e, st).
Definition mbind' {A B} (m : M A) (k : A -> M B) : M B :=
  fun st =>
    match m st with
    | (Return a, st') => k a st'
    | (Raise e, st') => (Raise e, st')
    end.
Definition try_except {A} (m : M A) (handler : exn -> M A) : M A :=
  fun st =>
    match m st with
    | (Raise e, st') => handler e st'
    | ok => ok
    end.

Notation "x <~ m ;; k" := (mbind' m (fun x => k))
  (at level 100, m at next level, right associativity).

Definition print (line : pystr) : M unit :=
  fun st => (Return tt, State (stdout st ++ [line]) (wire st)).

Definition send (w : world) (req : request) : M response :=
  fun st => (http w req, State (stdout st) (wire st ++ [req])).

(** ** [class BitMexRest] *)

Record BitMexRest : Type := Client {
  api_key : pystr;
  api_secret : pystr;
  baseurl : pystr
}.

(** [__init__] (lines 8-25) *)
Definition __init__ (api_key api_secret : pystr) (test : bool) : BitMexRest :=
  Client api_key api_secret
    (if test then lit "https://testnet.bitmex.com/api/v1"
     else lit "https://www.bitmex.com/api/v1").

(** [int(datetime.now(timezone.utc).timestamp() * 1000)] *)
Definition utc_millis (g : gmap string binding) (w : world) : result Z :=
  load_member g "datetime" "datetime" ;;;
  load_member g "datetime" "timezone" ;;;
  let dt := Datetime (year (now w)) (month (now w)) (day (now w))
              (hour (now w)) (minute (now w)) (second (now w))
              (microsecond (now w)) (Some 0) in
  t <- DT.timestamp (localtime w) dt ;;
  Float.to_int (Float.mul t (Finite 1000 0)).

(** Line 46: the path that is signed. *)
Definition api_url (endpoint : pystr) : pystr := lit "/api/v1" ++ endpoint.

(** [get_headers] (lines 40-57) *)
Definition get_headers (g : gmap string binding) (w : world) (self : BitMexRest)
    (verb endpoint data : pystr) : result (list (pystr * pystr)) :=
  nonce <- utc_millis g w ;;
  signature <- generate_signature g (api_secret self) verb (api_url endpoint)
                 nonce data ;;
  expires <- str nonce ;;
  Return [(lit "api-expires", expires);
          (lit "api-key", api_key self);
          (lit "api-signature", signature);
          (lit "Content-Type", lit "application/json")].

(** Lines 86-90, 109-113 and 141-145, the same in the three operations:
    what becomes of the response. *)
Definition respond (response : response) : M pyval :=
  if status_code response =? 200 then lift (response_json response)
  else
    status <~ lift (str (status_code response)) ;;
    _ <~ print (lit "Error: " ++ status ++ lit " - " ++ text response) ;;
    ret PNone.

(** The dict literal [order] of lines 74-80. *)
Definition post_order_dict (symbol order_qty price side ord_type : pyval)
  : list (pystr * pyval) :=
  [(lit "symbol", symbol);
   (lit "orderQty", order_qty);
   (lit "price", price);
   (lit "side", side);
   (lit "ordType", ord_type)].

(** [post_order] (lines 59-90) *)
Definition post_order (g : gmap string binding) (w : world) (self : BitMexRest)
    (symbol order_qty price side ord_type : pyval) : M pyval :=
  let endpoint := lit "/order" in
  let verb := lit "POST" in
  let order := PDict (post_order_dict symbol order_qty price side ord_type) in
  _ <~ lift (load_module_attr g "json" "dumps") ;;
  _ <~ lift (Json.guard (json_depth w) order) ;;
  let data := Json.dumps (float_repr w) order in
  headers <~ lift (get_headers g w self verb endpoint data) ;;
  _ <~ lift (load_module_attr g "requests" "post") ;;
  response <~ send w (Request (lit "POST") (baseurl self ++ endpoint)
                        (Some headers) None (Some data) None) ;;
  respond response.

(** [cancel_all_orders] (lines 92-113) *)
Definition cancel_all_orders (g : gmap string binding) (w : world)
    (self : BitMexRest) : M pyval :=
  let endpoint := lit "/order/all" in
  let verb := lit "DELETE" in
  let data := lit "" in
  headers <~ lift (get_headers g w self verb endpoint data) ;;
  _ <~ lift (load_module_attr g "requests" "delete") ;;
  response <~ send w (Request (lit "DELETE") (baseurl self ++ endpoint)
                        (Some headers) None None None) ;;
  respond response.

(** The dict literal [order] of lines 130-135. *)
Definition place_market_order_dict (symbol order_qty side : pyval)
  : list (pystr * pyval) :=
  [(lit "symbol", symbol);
   (lit "orderQty", order_qty);
   (lit "side", side);
   (lit "ordType", PStr (lit "Market"))].

(** [place_market_order] (lines 115-145) *)
Definition place_market_order (g : gmap string binding) (w : world)
    (self : BitMexRest) (symbol order_qty side : pyval) : M pyval :=
  let endpoint := lit "/order" in
  let verb := lit "POST" in
  let order := PDict (place_market_order_dict symbol order_qty side) in
  _ <~ lift (load_module_attr g "json" "dumps") ;;
  _ <~ lift (Json.guard (json_depth w) order) ;;
  let data := Json.dumps (float_repr w) order in
  headers <~ lift (get_headers g w self verb endpoint data) ;;
  _ <~ lift (load_module_attr g "requests" "post") ;;
  response <~ send w (Request (lit "POST") (baseurl self ++ endpoint)
                        (Some headers) None (Some data) None) ;;
  respond response.

(** ** Market data *)

(** One normalised record: the dict literal of lines 159-167. *)
Record ohlcv : Type := Ohlcv {
  open : pyval;
  close : pyval;
  high : pyval;
  low : pyval;
  volume : pyval;
  time : Z
}.

(** [item['timestamp'].replace('Z', '+00:00')]: only a [str] has [replace]. *)
Definition replace_Z (v : pyval) : result pystr :=
  match v with
  | PStr s => Return (replace 90 (lit "+00:00") s)
  | _ => Raise (AttributeError "replace")
  end.

(** One element of the comprehension of lines 158-169. *)
Definition format_item (g : gmap string binding) (w : world) (item : pyval)
  : result ohlcv :=
  o <- getitem item (lit "open") ;;
  c <- getitem item (lit "close") ;;
  h <- getitem item (lit "high") ;;
  l <- getitem item (lit "low") ;;
  v <- getitem item (lit "volume") ;;
  load_member g "datetime" "datetime" ;;;
  ts <- getitem item (lit "timestamp") ;;
  iso <- replace_Z ts ;;
  dt <- DT.fromisoformat iso ;;
  t <- DT.timestamp (localtime w) dt ;;
  ms <- Float.to_int (Float.mul t (Finite 1000 0)) ;;
  Return (Ohlcv o c h l v ms).

Fixpoint map_result {A B} (f : A -> result B) (l : list A) : result (list B) :=
  match l with
  | [] => Return []
  | a :: l' =>
      b <- f a ;;
      bs <- map_result f l' ;;
      Return (b :: bs)
  end.

(** [format_ohlcv] (lines 147-171) *)
Definition format_ohlcv (g : gmap string binding) (w : world)
    (ohlcv_data : pyval) : result (list ohlcv) :=
  items <- iterate ohlcv_data ;;
  map_result (format_item g w) items.

(** The class hierarchy of [requests.exceptions]. *)
#[global] Instance requests_exc_eq_dec : EqDecision requests_exc.
Proof. solve_decision. Defined.

Definition bases (c : requests_exc) : list requests_exc :=
  match c with
  | RequestException => []
  | InvalidJSONError | HTTPError | ConnectionError | Timeout | URLRequired
  | TooManyRedirects | MissingSchema | InvalidSchema | InvalidURL
  | InvalidHeader | ChunkedEncodingError | ContentDecodingError
  | StreamConsumedError | RetryError | UnrewindableBodyError =>
      [RequestException]
  | InvalidProxyURL => [InvalidURL]
  | JSONDecodeError => [InvalidJSONError]
  | ProxyError | SSLError => [ConnectionError]
  | ConnectTimeout => [ConnectionError; Timeout]
  | ReadTimeout => [Timeout]
  end.

Fixpoint issubclass_upto (depth : nat) (c d : requests_exc) : bool :=
  bool_decide (c = d)
  || match depth with
     | O => false
     | S n => existsb (fun b => issubclass_upto n b d) (bases c)
     end.
Definition issubclass : requests_exc -> requests_exc -> bool :=
  issubclass_upto 3.

(** [isinstance(e, (c1, c2))] for classes of [requests.exceptions]. *)
Definition isinstance (e : exn) (classes : list requests_exc) : bool :=
  match e with
  | RequestsError c => existsb (issubclass c) classes
  | _ => false
  end.

(** [raise name(msg) from cause].  The source raises two classes,
    [ExchangeConnectionError] and [ExchangeRequestTimeOut], that it neither
    defines nor imports: their names are looked up in [g] like any other
    global, and the class a name is bound to is what is raised. *)
Definition raise_from (g : gmap string binding) (name : string) (msg : pystr)
    (cause : exn) : result (list ohlcv) :=
  b <- load g name ;;
  match b with
  | ExcClass cls => Raise (Raised cls msg cause)
  | _ => Raise (TypeError "object is not callable")
  end.

(** [get_ohlc] (lines 173-208) *)
Definition get_ohlc (g : gmap string binding) (w : world) (self : BitMexRest)
    (ticker timeframe : pystr) : M (list ohlcv) :=
  let path := lit "/trade/bucketed" in
  let payload := [(lit "binSize", PStr timeframe);
                  (lit "partial", PBool false);
                  (lit "symbol", PStr ticker);
                  (lit "count", PInt 100);
                  (lit "reverse", PBool true)] in
  let url := baseurl self ++ path in
  try_except
    (_ <~ lift (load_module_attr g "requests" "get") ;;
     response <~ send w (Request (lit "GET") url None (Some payload) None
                           (Some 10)) ;;
     response <~ lift (response_json response) ;;
     lift (format_ohlcv g w response))
    (fun e =>
       _ <~ lift (load_module_attr g "requests" "exceptions") ;;
       if isinstance e [ConnectionError; JSONDecodeError] then
         lift (raise_from g "ExchangeConnectionError"
                 (lit "Failed to establish a connection to Bitmex. There is an error on their end")
                 e)
       else
         _ <~ lift (load_module_attr g "requests" "exceptions") ;;
         if isinstance e [ReadTimeout; Timeout] then
           lift (raise_from g "ExchangeRequestTimeOut"
                   (lit "Connection with Bitmex has timed out") e)
         else raise e).

(** ** The order and cancel operations, as one family *)

Inductive order_op : Type :=
| PostOrder (symbol order_qty price side ord_type : pyval)
| PlaceMarketOrder (symbol order_qty side : pyval)
| CancelAllOrders.

Definition run_op (g : gmap string binding) (w : world) (self : BitMexRest)
    (op : order_op) : M pyval :=
  match op with
  | PostOrder symbol order_qty price side ord_type =>
      post_order g w self symbol order_qty price side ord_type
  | PlaceMarketOrder symbol order_qty side =>
      place_market_order g w self symbol order_qty side
  | CancelAllOrders => cancel_all_orders g w self
  end.

(** The [endpoint], [verb] and [data] locals of each operation. *)
Definition endpoint_of (op : order_op) : pystr :=
  match op with
  | PostOrder _ _ _ _ _ | PlaceMarketOrder _ _ _ => lit "/order"
  | CancelAllOrders => lit "/order/all"
  end.

Definition verb_of (op : order_op) : pystr :=
  match op with
  | PostOrder _ _ _ _ _ | PlaceMarketOrder _ _ _ => lit "POST"
  | CancelAllOrders => lit "DELETE"
  end.

Definition data_of (w : world) (op : order_op) : pystr :=
  match op with
  | PostOrder symbol order_qty price side ord_type =>
      Json.dumps (float_repr w)
        (PDict (post_order_dict symbol order_qty price side ord_type))
  | PlaceMarketOrder symbol order_qty side =>
      Json.dumps (float_repr w)
        (PDict (place_market_order_dict symbol order_qty side))
  | CancelAllOrders => lit ""
  end.

(** ** Notions the specification uses *)

(** The path component of an absolute URL (RFC 3986): what follows the
    authority, up to the query or the fragment. *)
Fixpoint after_scheme (u : pystr) : pystr :=
  match u with
  | 58 :: 47 :: 47 :: rest => rest
  | _ :: u' => after_scheme u'
  | [] => []
  end.

Fixpoint from_path (u : pystr) : pystr :=
  match u with
  | [] => []
  | c :: u' =>
      if (c =? 47) || (c =? 63) || (c =? 35) then u else from_path u'
  end.

Fixpoint upto_query (u : pystr) : pystr :=
  match u with
  | [] => []
  | c :: u' => if (c =? 63) || (c =? 35) then [] else c :: upto_query u'
  end.

Definition url_path (u : pystr) : pystr :=
  upto_query (from_path (after_scheme u)).

(** The epoch-millisecond value of an ISO-8601 timestamp that states its
    offset from UTC, in exact integer arithmetic. *)
Definition epoch_millis (iso : pystr) : option Z :=
  match DT.fromisoformat (replace 90 (lit "+00:00") iso) with
  | Return dt =>
      match tzinfo dt with
      | Some off => Some ((DT.wall_us dt - off) / 1000)
      | None => None
      end
  | Raise _ => None
  end.

(** [int(datetime.fromisoformat(iso).timestamp() * 1000)], the float
    computation of line 165, in a process whose zone is [local]. *)
Definition float_millis (local : Z -> Z) (iso : pystr) : result Z :=
  dt <- DT.fromisoformat iso ;;
  t <- DT.timestamp local dt ;;
  Float.to_int (Float.mul t (Finite 1000 0)).

(** A request carries the signer's headers. *)
Definition signed (req : request) : Prop :=
  exists h sig, headers req = Some h /\ dict_lookup h (lit "api-signature") = Some sig.

(** The signing contract in the specification's words: HMAC-SHA256, keyed
    with the UTF-8 bytes of the secret, over the UTF-8 bytes of
    [verb + path + str(nonce) + body], in lowercase hexadecimal. *)
Definition sign_spec (secret verb path : pystr) (nonce : Z) (body : pystr)
  : option pystr :=
  match bytes_utf8 secret, bytes_utf8 (verb ++ path ++ str_int nonce ++ body) with
  | Return key, Return msg => Some (hexlify (hmac_sha256 key msg))
  | _, _ => None
  end.



(** A lowercase hexadecimal digit. *)
Definition lower_hex (c : Z) : Prop := 48 <= c <= 57 \/ 97 <= c <= 102.

(** What the three operations have in common: resolve the names, build the
    headers, and describe the request; then send it and sort the response
    by its status. *)
Definition body_of (w : world) (op : order_op) : option pystr :=
  match op with
  | CancelAllOrders => None
  | _ => Some (data_of w op)
  end.

(** Whether [json.dumps] returns on the operation's [order]. *)
Definition dumps_guard (w : world) (op : order_op) : result unit :=
  match op with
  | PostOrder symbol order_qty price side ord_type =>
      Json.guard (json_depth w)
        (PDict (post_order_dict symbol order_qty price side ord_type))
  | PlaceMarketOrder symbol order_qty side =>
      Json.guard (json_depth w)
        (PDict (place_market_order_dict symbol order_qty side))
  | CancelAllOrders => Return tt
  end.

Definition prepare (g : gmap string binding) (w : world) (self : BitMexRest)
    (op : order_op) : result request :=
  (match op with
   | CancelAllOrders => Return tt
   | _ => load_module_attr g "json" "dumps"
   end) ;;;
  dumps_guard w op ;;;
  h <- get_headers g w self (verb_of op) (endpoint_of op) (data_of w op) ;;
  (match op with
   | CancelAllOrders => load_module_attr g "requests" "delete"
   | _ => load_module_attr g "requests" "post"
   end) ;;;
  Return (Request (verb_of op) (baseurl self ++ endpoint_of op) (Some h) None
            (body_of w op) None).

(** The line printed for an answer whose status is not 200. *)
Definition error_line (r : response) : pystr :=
  lit "Error: " ++ str_int (status_code r) ++ lit " - " ++ text r.

Definition settle (w : world) (req : request) (st : state)
  : result pyval * state :=
  let sent := State (stdout st) (wire st ++ [req]) in
  match http w req with
  | Raise e => (Raise e, sent)
  | Return r => respond r sent
  end.

(** *** Concrete runs

    The module with [import hmac] added, the module with the two
    exception classes defined, a clock at 2021-01-01T00:00:00.123456Z, a
    process one hour east of Greenwich, and two exchanges: one that accepts
    every request and one that rejects every request. *)

Definition repaired_globals : gmap string binding :=
  <["hmac" := Module "hmac"]> module_globals.

Definition with_exchange_errors : gmap string binding :=
  <["ExchangeConnectionError" := ExcClass "ExchangeConnectionError"]>
  (<["ExchangeRequestTimeOut" := ExcClass "ExchangeRequestTimeOut"]>
   module_globals).

Definition new_year_2021 : datetime := Datetime 2021 1 1 0 0 0 123456 None.

Definition accepting : world :=
  World new_year_2021 (fun u => u + 3600)
    (fun _ => Return (Response 200 (lit "[]") (Some (PList []))))
    (fun _ => lit "1.5") 990.

Definition rejecting : world :=
  World new_year_2021 (fun u => u + 3600)
    (fun _ => Return (Response 401 (lit "Unauthorized") None))
    (fun _ => lit "1.5") 990.

(** An exchange that answers every request with status 200 and a page
    that is not JSON. *)
Definition garbled : world :=
  World new_year_2021 (fun u => u + 3600)
    (fun _ => Return (Response 200 (lit "<html>") None))
    (fun _ => lit "1.5") 990.

Definition testnet_client : BitMexRest :=
  __init__ (lit "KEY") (lit "chNOOS4KvNXR_Xq4k4c9qsfoKWvnDecLATCRlcBwyKDYnWgO") true.

Definition fresh : state := State [] [].

Definition cancel_request : request :=
  Request (lit "DELETE") (lit "https://testnet.bitmex.com/api/v1/order/all")
    (Some [(lit "api-expires", lit "1609459200123");
           (lit "api-key", lit "KEY");
           (lit "api-signature",
            lit "8f5efe1c4aea4bd453b5ebfdf46e288ea929fcf45aee38071293b938efdf4709");
           (lit "Content-Type", lit "application/json")])
    None None None.

(** ** Which requests carry the signer's headers *)

(** The one request [get_ohlc] builds (lines 189-201). *)
Definition ohlc_request (self : BitMexRest) (ticker timeframe : pystr) : request :=
  Request (lit "GET") (baseurl self ++ lit "/trade/bucketed") None
    (Some [(lit "binSize", PStr timeframe);
           (lit "partial", PBool false);
           (lit "symbol", PStr ticker);
           (lit "count", PInt 100);
           (lit "reverse", PBool true)])
    None (Some 10).

(** The messages of lines 205-208. *)
Definition connection_message : pystr :=
  lit "Failed to establish a connection to Bitmex. There is an error on their end".
Definition timeout_message : pystr :=
  lit "Connection with Bitmex has timed out".

(** The two [except] clauses of lines 204-208, applied to what the [try]
    block raised. *)
Definition ohlc_handler (g : gmap string binding) (e : exn)
  : result (list ohlcv) :=
  load_module_attr g "requests" "exceptions" ;;;
  if isinstance e [ConnectionError; JSONDecodeError] then
    raise_from g "ExchangeConnectionError" connection_message e
  else
    load_module_attr g "requests" "exceptions" ;;;
    if isinstance e [ReadTimeout; Timeout] then
      raise_from g "ExchangeRequestTimeOut" timeout_message e
    else Raise e.

(** ** Failures of the market-data request *)

(** An outcome is the exception class [cls] being raised. *)
Definition raises_class {A} (out : result A) (cls : string) : Prop :=
  exists msg cause, out = Raise (Raised cls msg cause).

(** An exchange that cannot be reached in time: every request ends in
    [requests.exceptions.ConnectTimeout]. *)
Definition unreachable : world :=
  World new_year_2021 (fun u => u + 3600)
    (fun _ => Raise (RequestsError ConnectTimeout)) (fun _ => lit "1.5") 990.

(** An exchange that accepts the connection and then stays silent. *)
Definition silent : world :=
  World new_year_2021 (fun u => u + 3600)
    (fun _ => Raise (RequestsError ReadTimeout)) (fun _ => lit "1.5") 990.

(** ** Normalising buckets *)

(** A bucket as the exchange sends it, with timestamp [ts]. *)
Definition bucket (ts : pystr) : pyval :=
  PDict [(lit "timestamp", PStr ts);
         (lit "symbol", PStr (lit "XBTUSD"));
         (lit "open", PFloat (Finite 58001 (-1)));
         (lit "high", PFloat (Finite 29050 0));
         (lit "low", PInt 28990);
         (lit "close", PFloat (Finite 58041 (-1)));
         (lit "trades", PInt 412);
         (lit "volume", PInt 1250300)].

(** ** Reading the members of a JSON text *)

Module JsonText.

(** Where the reader stands: outside any string, inside one (with what it
    has read of it, still escaped), or just after a backslash inside one. *)
Inductive mode : Type :=
| Out
| Str (cur : pystr)
| Esc (cur : pystr).

Definition opens (c : Z) : bool := (c =? 123) || (c =? 91).
Definition closes (c : Z) : bool := (c =? 125) || (c =? 93).

(** The names of the members of the outermost object of [t], in order, each
    as it is written between its quotes: a name is the string that
    precedes a colon at nesting depth one. *)
Fixpoint scan (t : pystr) (m : mode) (depth : nat) (last : option pystr)
  : option (list pystr) :=
  match t with
  | [] =>
      match m, depth with
      | Out, O => Some []
      | _, _ => None
      end
  | c :: t' =>
      match m with
      | Esc cur => scan t' (Str (cur ++ [c])) depth last
      | Str cur =>
          if c =? 92 then scan t' (Esc (cur ++ [c])) depth last
          else if c =? 34 then
            scan t' Out depth (if (depth =? 1)%nat then Some cur else last)
          else scan t' (Str (cur ++ [c])) depth last
      | Out =>
          if c =? 34 then scan t' (Str []) depth last
          else if opens c then scan t' Out (S depth) last
          else if closes c then
            match depth with
            | O => None
            | S d => scan t' Out d last
            end
          else if c =? 58 then
            if (depth =? 1)%nat then
              match last with
              | Some k => names ← scan t' Out depth None; Some (k :: names)
              | None => None
              end
            else scan t' Out depth last
          else scan t' Out depth last
      end
  end.

Definition member_names (t : pystr) : option (list pystr) := scan t Out 0 None.

(** A character that is no quote, bracket, brace or colon. *)
Definition plain (c : Z) : bool :=
  negb ((c =? 34) || opens c || closes c || (c =? 58)).

(** Text that cannot end a string: characters other than the quote and
    the backslash, and backslash pairs. *)
Inductive escaped_seq : pystr -> Prop :=
| escaped_nil : escaped_seq []
| escaped_char c x : c <> 34 -> c <> 92 -> escaped_seq x -> escaped_seq (c :: x)
| escaped_pair c x : escaped_seq x -> escaped_seq (92 :: c :: x).

(** Text read without leaving a trace but, perhaps, the last string seen. *)
Definition passes (d : nat) (x : pystr) : Prop :=
  forall last rest, exists last',
    scan (x ++ rest) Out d last = scan rest Out d last'.

(** One member of a dict, as [json.dumps] writes it. *)
Definition member_text (repr : pyfloat -> pystr) (kv : pystr * pyval) : pystr :=
  Json.encode_str kv.1 ++ lit ": " ++ Json.dumps repr kv.2.

End JsonText.

(** Induction on values, through the lists they nest. *)
Section PyvalInduction.
Variable P : pyval -> Prop.
Hypothesis HNone : P PNone.
Hypothesis HBool : forall b, P (PBool b).
Hypothesis HInt : forall n, P (PInt n).
Hypothesis HFloat : forall x, P (PFloat x).
Hypothesis HStr : forall s, P (PStr s).
Hypothesis HList : forall l, Forall P l -> P (PList l).
Hypothesis HDict : forall d, Forall (fun kv => P kv.2) d -> P (PDict d).

Fixpoint pyval_nested_ind (v : pyval) : P v :=
  match v with
  | PNone => HNone
  | PBool b => HBool b
  | PInt n => HInt n
  | PFloat x => HFloat x
  | PStr s => HStr s
  | PList l =>
      HList l
        ((fix go (l : list pyval) : Forall P l :=
            match l with
            | [] => List.Forall_nil P
            | x :: l' => List.Forall_cons _ x l' (pyval_nested_ind x) (go l')
            end) l)
  | PDict d =>
      HDict d
        ((fix go (d : list (pystr * pyval)) : Forall (fun kv => P kv.2) d :=
            match d with
            | [] => List.Forall_nil _
            | kv :: d' =>
                List.Forall_cons _ kv d' (pyval_nested_ind kv.2) (go d')
            end) d)
  end.
End PyvalInduction.

(** ** The [price] field of an order *)

Definition market_order_members : list pystr :=
  [lit "symbol"; lit "orderQty"; lit "side"; lit "ordType"].
Definition limit_order_members : list pystr :=
  [lit "symbol"; lit "orderQty"; lit "price"; lit "side"; lit "ordType"].

Definition market_via_post_order : request :=
  Request (lit "POST") (lit "https://testnet.bitmex.com/api/v1/order")
    (Some [(lit "api-expires", lit "1609459200123");
           (lit "api-key", lit "KEY");
           (lit "api-signature",
            lit "d67787bddff629beb701eda032de8fbb5ef6d3170a56a32ea062c8cf67d8883d");
           (lit "Content-Type", lit "application/json")])
    None
    (Some (Json.dumps (fun _ => lit "1.5")
             (PDict (post_order_dict (PStr (lit "XBTUSD")) (PInt 10) PNone
                       (PStr (lit "Buy")) (PStr (lit "Market"))))))
    None.

(** ** Where the float computation of [time] is exact *)

(** A timestamp that states its offset, falls on a whole millisecond, and
    lies between 2004-11-03T19:53:47.776Z and 2038-01-19T03:14:08Z. *)
Definition in_exact_range (ts : pystr) (ms : Z) : Prop :=
  exists dt off,
    DT.fromisoformat (replace 90 (lit "+00:00") ts) = Return dt
    /\ tzinfo dt = Some off
    /\ DT.wall_us dt - off = ms * 1000
    /\ 2 ^ 40 <= ms < 1000 * 2 ^ 31.

(** The record the specification describes for a bucket: the five fields
    as they are in the bucket, and the epoch-millisecond value of its
    timestamp. *)
Definition normalised (item : pyval) (row : ohlcv) : Prop :=
  getitem item (lit "open") = Return (open row)
  /\ getitem item (lit "close") = Return (close row)
  /\ getitem item (lit "high") = Return (high row)
  /\ getitem item (lit "low") = Return (low row)
  /\ getitem item (lit "volume") = Return (volume row)
  /\ exists ts,
       getitem item (lit "timestamp") = Return (PStr ts)
       /\ in_exact_range ts (time row).

(** ** The clock *)

(** The reading of the clock, in microseconds since the epoch. *)
Definition clock_us (w : world) : Z := DT.wall_us (now w).

(** A clock between 2004-11-03T19:53:47.776Z and 2038-01-19T03:14:08Z. *)
Definition clock_in_range (w : world) : Prop :=
  1000 * 2 ^ 40 <= clock_us w < 1000000 * 2 ^ 31.

(** ** Reading a decimal back *)

(** The text of a [pystr] of octet range, as a string. *)
Definition unlit (s : pystr) : string :=
  string_of_list_ascii ((fun c => ascii_of_N (Z.to_N c)) <$> s).

(** [int(s)] on the plain decimal text of an integer: digits, after an
    optional minus sign. *)
Definition int_str (s : pystr) : option Z :=
  Z.of_int <$> NilZero.int_of_string (unlit s).

(** The names of the four headers, in the order of lines 51-56. *)
Definition header_names : list pystr :=
  [lit "api-expires"; lit "api-key"; lit "api-signature"; lit "Content-Type"].

(** ** Texts and namespaces the operations are run on *)

(** A text of printable ASCII characters only. *)
Definition ascii_text (s : pystr) : bool :=
  forallb (fun c => (32 <=? c) && (c <=? 126)) s.


(** A clock later in the millisecond of [new_year_2021]. *)
Definition same_millisecond : world :=
  World (Datetime 2021 1 1 0 0 0 123999 None) (fun u => u)
    (http accepting) (float_repr accepting) (json_depth accepting).

(** An order whose symbol holds a lone surrogate. *)
Definition surrogate_order : order_op :=
  PostOrder (PStr [0xD83D]) (PInt 1) (PFloat (Finite 3 (-1)))
    (PStr (lit "Buy")) (PStr (lit "Limit")).

(** ** Answers and failures of the market-data request *)

(** An exception of the language itself, as opposed to one of [requests]
    or of a class raised by name. *)
Definition is_builtin (e : exn) : bool :=
  match e with
  | RequestsError _ | Raised _ _ _ => false
  | _ => true
  end.

(** An exchange that answers every request with status 503 and an empty
    JSON list. *)
Definition overloaded : world :=
  World new_year_2021 (fun u => u)
    (fun _ => Return (Response 503 (lit "[]") (Some (PList []))))
    (fun _ => lit "1.5") 990.

(** The JSON object by which the exchange reports an error, and an
    exchange that answers every request with it. *)
Definition error_answer : pyval :=
  PDict [(lit "error",
          PDict [(lit "message", PStr (lit "Not Found"));
                 (lit "name", PStr (lit "HTTPError"))])].

Definition refusing : world :=
  World new_year_2021 (fun u => u)
    (fun _ => Return (Response 404 (Json.dumps (fun _ => []) error_answer)
                        (Some error_answer)))
    (fun _ => lit "1.5") 990.

(** An exchange that redirects without end. *)
Definition looping : world :=
  World new_year_2021 (fun u => u)
    (fun _ => Raise (RequestsError TooManyRedirects)) (fun _ => lit "1.5") 990.

(** ** Buckets and their keys *)

(** The keys [format_ohlcv] reads from a bucket, in the order in which the
    dict literal of lines 159-167 reads them. *)
Definition ohlcv_keys : list pystr :=
  [lit "open"; lit "close"; lit "high"; lit "low"; lit "volume";
   lit "timestamp"].

(** The microseconds between the epoch and an ISO-8601 timestamp that
    states its offset from UTC, in exact integer arithmetic. *)
Definition epoch_micros (iso : pystr) : option Z :=
  match DT.fromisoformat (replace 90 (lit "+00:00") iso) with
  | Return dt =>
      match tzinfo dt with
      | Some off => Some (DT.wall_us dt - off)
      | None => None
      end
  | Raise _ => None
  end.

(** A bucket without its volume. *)
Definition bucket_without_volume : pyval :=
  PDict [(lit "timestamp", PStr (lit "2021-01-01T00:00:00.000Z"));
         (lit "open", PInt 1); (lit "high", PInt 2);
         (lit "low", PInt 1); (lit "close", PInt 2)].

(** ** Where requests go *)

(** The host [__init__] chooses (lines 22-25). *)
Definition host (test : bool) : pystr :=
  if test then lit "https://testnet.bitmex.com" else lit "https://www.bitmex.com".

(** The endpoints of the four methods. *)
Definition endpoints : list pystr :=
  [lit "/order"; lit "/order/all"; lit "/trade/bucketed"].

(** ** Timestamps read as UTC *)

(** The same wall-clock fields, with the zone UTC. *)
Definition as_utc (dt : datetime) : datetime :=
  Datetime (year dt) (month dt) (day dt) (hour dt) (minute dt) (second dt)
    (microsecond dt) (Some 0).

(** * Properties *)

(** ** Reference values

    The library functions the source calls are modelled above; these are
    values CPython and the standards give for them. *)

(** FIPS 180-4, the one-block message ["abc"]. *)
Example sha256_abc :
  hexlify (SHA256.digest (lit "abc"))
  = lit "ba7816bf8f01cfea414140de5dae2223b00361a396177a9cb410ff61f20015ad".
Proof. vm_compute. reflexivity. Qed.

(** RFC 4231, test case 2. *)
Example hmac_sha256_rfc4231_2 :
  hexlify (hmac_sha256 (lit "Jefe") (lit "what do ya want for nothing?"))
  = lit "5bdcc146bf60754e6a042426089575c75a003f089d2739839dec58b964ec3843".
Proof. vm_compute. reflexivity. Qed.

(** A key longer than one block is hashed first. *)
Example hmac_sha256_long_key :
  hexlify (hmac_sha256 (repeat 107 100)
             (lit "POST/api/v1/order1600000000000" ++ repeat 120 200))
  = lit "4e1f83d24be202552ffcd455c84ebf2d80cfe9fa60944c71b91f636f24987391".
Proof. vm_compute. reflexivity. Qed.

(** The euro sign, an emoji and e-acute, in UTF-8; a lone surrogate has no
    encoding. *)
Example bytes_utf8_values :
  bytes_utf8 [0x20AC; 0x1F600; 0xE9]
  = Return [226; 130; 172; 240; 159; 152; 128; 195; 169]
  /\ bytes_utf8 [0xD800] = Raise (UnicodeEncodeError 0xD800).
Proof. split; reflexivity. Qed.

Example str_int_values :
  str_int 1518064236 = lit "1518064236" /\ str_int 0 = lit "0"
  /\ str_int (-120) = lit "-120".
Proof. repeat split; reflexivity. Qed.

(** [json.dumps] escapes what is not printable ASCII, a character beyond
    the basic plane as a surrogate pair. *)
Example dumps_values :
  Json.dumps (fun _ => lit "1.5")
    (PList [PInt (-5); PFloat (Finite 3 (-1)); PNone; PBool true; PList []])
  = lit "[-5, 1.5, null, true, []]"
  /\ Json.encode_str [0x7F; 0x20AC; 0x1F600; 10]
     = [34] ++ lit "\u007f\u20ac\ud83d\ude00\n" ++ [34].
Proof. split; reflexivity. Qed.

Example fromisoformat_values :
  DT.fromisoformat (lit "2021-01-01T12:30:01.123456+05:30")
  = Return (Datetime 2021 1 1 12 30 1 123456 (Some 19800000000))
  /\ DT.fromisoformat (lit "2021-01-01T12:30:01-00:00")
     = Return (Datetime 2021 1 1 12 30 1 0 (Some 0))
  /\ DT.fromisoformat (lit "2021-01-01T00:00:00.000")
     = Return (Datetime 2021 1 1 0 0 0 0 None)
  /\ DT.fromisoformat (lit "2021-01-01")
     = Return (Datetime 2021 1 1 0 0 0 0 None)
  /\ DT.fromisoformat (lit "2021-02-29")
     = Raise (ValueError "field out of range")
  /\ DT.fromisoformat (lit "2021-01-01T00:00:00.000Z")
     = Raise (ValueError "Invalid isoformat string").
Proof. repeat split; vm_compute; reflexivity. Qed.

(** [int(dt.timestamp() * 1000)] as CPython computes it: exact in 2021,
    one millisecond off in 1935, 2004 and 2038. *)
Example float_millis_values :
  float_millis (fun u => u) (lit "2021-01-01T00:00:00.000+00:00")
  = Return 1609459200000
  /\ float_millis (fun u => u) (lit "2021-01-01T12:30:01.123456+05:30")
     = Return 1609484401123
  /\ float_millis (fun u => u) (lit "1935-08-27T00:47:51.242+00:00")
     = Return (-1083971528757)
  /\ float_millis (fun u => u) (lit "2004-10-28T23:41:18.916+00:00")
     = Return 1099006878915
  /\ float_millis (fun u => u) (lit "2038-11-17T19:51:47.219+00:00")
     = Return 2173636307218
  /\ float_millis (fun u => u + 3600) (lit "2021-01-01T00:00:00.000")
     = Return 1609455600000.
Proof. repeat split; vm_compute; reflexivity. Qed.

(** An offset of no whole second is UTC, whatever its microseconds; from
    one second on the microseconds count. *)
Example float_millis_subsecond_offsets :
  float_millis (fun u => u) (lit "2021-01-01T00:00:00+00:00:00.500000")
  = Return 1609459200000
  /\ float_millis (fun u => u) (lit "2021-01-01T00:00:00-00:00:00.500000")
     = Return 1609459200000
  /\ float_millis (fun u => u) (lit "2021-01-01T00:00:00+00:00:01.500000")
     = Return 1609459198500
  /\ float_millis (fun u => u) (lit "2021-01-01T00:00:00-00:00:01.500000")
     = Return 1609459201500.
Proof. repeat split; vm_compute; reflexivity. Qed.

(** [str] accepts 4300 digits and refuses 4301, whatever the sign. *)
Example str_limit :
  str_bound = 10 ^ 4300
  /\ fits_str (str_bound - 1) = true /\ fits_str (- (str_bound - 1)) = true
  /\ fits_str str_bound = false /\ fits_str (- str_bound) = false
  /\ str 1518064236 = Return (lit "1518064236").
Proof.
  repeat match goal with |- _ /\ _ => split end; vm_compute; reflexivity.
Qed.

(** [json.dumps] raises what it meets first: the [int] too long before
    the list too deep, and the other way round. *)
Example guard_values :
  Json.guard 2 (PList [PInt str_bound; PList [PList [PList []]]])
  = Raise (ValueError "Exceeds the limit (4300 digits) for integer string conversion")
  /\ Json.guard 2 (PList [PList [PList [PList []]]; PInt str_bound])
     = Raise RecursionError
  /\ Json.guard 2 (PDict [(lit "a", PList [PInt 1; PStr (lit "x")])])
     = Return tt.
Proof.
  repeat match goal with |- _ /\ _ => split end; vm_compute; reflexivity.
Qed.

(** With [hmac] bound, a secret that holds a lone surrogate still cannot be
    signed. *)
Example generate_signature_lone_surrogate :
  generate_signature repaired_globals [0xD800] (lit "GET") (lit "/api/v1/order")
    1 (lit "")
  = Raise (UnicodeEncodeError 0xD800).
Proof. reflexivity. Qed.

(** ** Name resolution *)

Lemma lit_cons a s : lit (String a s) = Z.of_N (N_of_ascii a) :: lit s.
Proof. reflexivity. Qed.

Lemma load_module_attr_bound (g : gmap string binding) name attr :
  g !! name = Some (Module name) -> load_module_attr g name attr = Return tt.
Proof.
  intros Hg. unfold load_module_attr, load. rewrite Hg. simpl.
  destruct (decide (Module name = Module name)); congruence.
Qed.

Lemma load_member_bound (g : gmap string binding) module name :
  g !! name = Some (Member module name) -> load_member g module name = Return tt.
Proof.
  intros Hg. unfold load_member, load. rewrite Hg. simpl.
  destruct (decide (Member module name = Member module name)); congruence.
Qed.

Lemma load_module_attr_inv (g : gmap string binding) name attr :
  load_module_attr g name attr = Return tt -> g !! name = Some (Module name).
Proof.
  unfold load_module_attr, load. destruct (g !! name) as [b|]; simpl; [|discriminate].
  destruct (decide (b = Module name)); [congruence | discriminate].
Qed.

(** ** [str] *)

Lemma str_fits n : fits_str n = true -> str n = Return (str_int n).
Proof. unfold str. intros ->. reflexivity. Qed.

Lemma str_inv n s : str n = Return s -> fits_str n = true /\ s = str_int n.
Proof. unfold str. destruct (fits_str n); [intros [= <-]; auto | discriminate]. Qed.

Lemma str_long n :
  fits_str n = false ->
  str n = Raise (ValueError "Exceeds the limit (4300 digits) for integer string conversion").
Proof. unfold str. intros ->. reflexivity. Qed.


(** ** Signing *)


(** Whenever [generate_signature] returns, it returns that digest. *)
Lemma generate_signature_inv (g : gmap string binding)
    secret verb url nonce data sig :
  generate_signature g secret verb url nonce data = Return sig ->
  g !! "hmac" = Some (Module "hmac")
  /\ sign_spec secret verb url nonce data = Some sig
  /\ fits_str nonce = true.
Proof.
  unfold generate_signature, sign_spec.
  destruct (str nonce) as [n|] eqn:Hn; cbn [bind]; [|discriminate].
  apply str_inv in Hn as [Hn ->].
  destruct (load_module_attr g "hmac" "new") as [[]|] eqn:Hh; simpl; [|discriminate].
  apply load_module_attr_inv in Hh.
  destruct (bytes_utf8 secret); simpl; [|discriminate].
  destruct (bytes_utf8 _); simpl; [|discriminate].
  destruct (load_module_attr g "hashlib" "sha256"); simpl; [|discriminate].
  intros [= <-]. auto.
Qed.

Lemma hex_digit_lower d : 0 <= d < 16 -> lower_hex (hex_digit d).
Proof. unfold hex_digit, lower_hex. intros. destruct (Z.ltb_spec d 10); lia. Qed.

















(** In a namespace that does not bind [hmac] every call raises: once
    line 34 has the text of the nonce, [NameError], before the secret is
    looked at. *)
Lemma generate_signature_unbound (g : gmap string binding)
    secret verb url nonce data :
  g !! "hmac" = None ->
  generate_signature g secret verb url nonce data
  = (str nonce ;;; Raise (NameError "hmac")).
Proof.
  intros Hg. unfold generate_signature, load_module_attr, load.
  rewrite Hg. destruct (str nonce); reflexivity.
Qed.

Lemma module_globals_hmac : module_globals !! "hmac" = None.
Proof.
  unfold module_globals. rewrite !lookup_insert_ne by discriminate.
  apply lookup_empty.
Qed.

(** C2 — claimed: for every input [generate_signature] returns a digest and
    never fails with an unresolved name.  On the module as written no call
    returns: for every nonce that [str] accepts, so every nonce of at most
    4300 digits, the call raises [NameError], since [hmac] is used on line
    35 and imported nowhere; for a longer nonce [str] raises [ValueError]
    on line 34, before that. *)
Theorem generate_signature_raises_NameError secret verb url nonce data :
  (exists e,
     generate_signature module_globals secret verb url nonce data = Raise e)
  /\ (fits_str nonce = true ->
      generate_signature module_globals secret verb url nonce data
      = Raise (NameError "hmac"))
  /\ (fits_str nonce = false ->
      generate_signature module_globals secret verb url nonce data
      = Raise (ValueError "Exceeds the limit (4300 digits) for integer string conversion")).
Proof.
  rewrite (generate_signature_unbound _ _ _ _ _ _ module_globals_hmac).
  unfold str. destruct (fits_str nonce); cbn [bind].
  - split; [eauto|]. split; [reflexivity | discriminate].
  - split; [eauto|]. split; [discriminate | reflexivity].
Qed.

(** C1 — claimed: [generate_signature] returns the lowercase hexadecimal
    HMAC-SHA256 digest of [verb + path + str(nonce) + body].  On the
    example of the exchange's documentation the contract asks for
    [c7682d43...], and the module as written raises [NameError]. *)
Theorem generate_signature_documented_example :
  let secret := lit "chNOOS4KvNXR_Xq4k4c9qsfoKWvnDecLATCRlcBwyKDYnWgO" in
  sign_spec secret (lit "GET") (lit "/api/v1/instrument") 1518064236 (lit "")
  = Some (lit "c7682d435d0cfe87c16098df34ef2eb5a549d4c5a3c2b1f0f77b8af73423bf00")
  /\ generate_signature module_globals secret (lit "GET")
       (lit "/api/v1/instrument") 1518064236 (lit "")
     = Raise (NameError "hmac").
Proof. split; [vm_compute; reflexivity | reflexivity]. Qed.

(** ** The order and cancel operations *)

Lemma respond_eq r st :
  respond r st
  = if status_code r =? 200 then (response_json r, st)
    else if fits_str (status_code r)
         then (Return PNone, State (stdout st ++ [error_line r]) (wire st))
         else (Raise (ValueError "Exceeds the limit (4300 digits) for integer string conversion"),
               st).
Proof.
  unfold respond, mbind', lift, print, ret, error_line, str.
  destruct (status_code r =? 200); [reflexivity|].
  destruct (fits_str (status_code r)); reflexivity.
Qed.

Lemma respond_wire r st : wire (respond r st).2 = wire st.
Proof.
  rewrite respond_eq. destruct (status_code r =? 200); [reflexivity|].
  destruct (fits_str (status_code r)); reflexivity.
Qed.

Lemma settle_wire w req st : wire (settle w req st).2 = wire st ++ [req].
Proof.
  unfold settle. destruct (http w req) as [r|]; [|reflexivity].
  apply respond_wire.
Qed.

Lemma run_op_eq g w self op st :
  run_op g w self op st
  = match prepare g w self op with
    | Raise e => (Raise e, st)
    | Return req => settle w req st
    end.
Proof.
  destruct op; unfold run_op, prepare, settle;
    [unfold post_order | unfold place_market_order | unfold cancel_all_orders];
    unfold mbind', lift, send; cbn [bind dumps_guard].
  1,2: destruct (load_module_attr g "json" "dumps") as [[]|]; cbn [bind];
       [|reflexivity];
       destruct (Json.guard _ _) as [[]|]; cbn [bind]; [|reflexivity].
  all: cbn [verb_of endpoint_of data_of body_of];
    match goal with
    | |- context [get_headers ?a ?b ?c ?d ?e ?f] =>
        destruct (get_headers a b c d e f); cbn [bind]; [|reflexivity]
    end;
    match goal with
    | |- context [load_module_attr ?g' "requests" ?a] =>
        destruct (load_module_attr g' "requests" a) as [[]|]; cbn [bind];
        [|reflexivity]
    end;
    cbn [http];
    match goal with
    | |- context [http ?w' ?r] => destruct (http w' r); reflexivity
    end.
Qed.

Lemma wire_unchanged_not_sent (st : state) (req : request) :
  wire st <> wire st ++ [req].
Proof.
  intros H. apply (f_equal length) in H. rewrite length_app in H. simpl in H. lia.
Qed.

(** A run that put a request on the wire had prepared exactly that one. *)
Lemma sent_request g w self op st req :
  wire (run_op g w self op st).2 = wire st ++ [req] ->
  prepare g w self op = Return req.
Proof.
  rewrite run_op_eq. destruct (prepare g w self op) as [req'|e]; simpl.
  - rewrite settle_wire.
    intros H; apply app_inj_tail in H as [_ ->]; reflexivity.
  - intros H. exfalso. eapply wire_unchanged_not_sent; eauto.
Qed.

Lemma prepare_inv g w self op req :
  prepare g w self op = Return req ->
  exists h,
    get_headers g w self (verb_of op) (endpoint_of op) (data_of w op) = Return h
    /\ req = Request (verb_of op) (baseurl self ++ endpoint_of op) (Some h) None
               (body_of w op) None.
Proof.
  unfold prepare.
  destruct (match op with CancelAllOrders => _ | _ => _ end) as [[]|];
    cbn [bind]; [|discriminate].
  destruct (dumps_guard w op) as [[]|]; cbn [bind]; [|discriminate].
  destruct (get_headers _ _ _ _ _ _) as [h|]; cbn [bind]; [|discriminate].
  destruct (match op with CancelAllOrders => _ | _ => _ end) as [[]|];
    cbn [bind]; [|discriminate].
  intros [= <-]. eauto.
Qed.

Lemma get_headers_inv g w self verb endpoint body h :
  get_headers g w self verb endpoint body = Return h ->
  exists nonce sig,
    utc_millis g w = Return nonce
    /\ g !! "hmac" = Some (Module "hmac")
    /\ sign_spec (api_secret self) verb (api_url endpoint) nonce body = Some sig
    /\ h = [(lit "api-expires", str_int nonce);
            (lit "api-key", api_key self);
            (lit "api-signature", sig);
            (lit "Content-Type", lit "application/json")].
Proof.
  unfold get_headers. destruct (utc_millis g w) as [nonce|]; cbn [bind]; [|discriminate].
  destruct (generate_signature _ _ _ _ _ _) as [sig|] eqn:Hs; cbn [bind]; [|discriminate].
  apply generate_signature_inv in Hs as (Hh & Hs & Hn).
  rewrite (str_fits _ Hn). cbn [bind].
  intros [= <-]. exists nonce, sig. auto.
Qed.

(** *** Concrete runs *)

Example cancel_all_orders_rejected :
  cancel_all_orders repaired_globals rejecting testnet_client fresh
  = (Return PNone, State [lit "Error: 401 - Unauthorized"] [cancel_request]).
Proof. vm_compute. reflexivity. Qed.

Example cancel_all_orders_as_written :
  cancel_all_orders module_globals rejecting testnet_client fresh
  = (Raise (NameError "hmac"), fresh).
Proof. vm_compute. reflexivity. Qed.

(** C3 — for every order or cancel operation and both base URLs, the path
    that is signed, ['/api/v1' + endpoint], is the path component of the URL
    requested, [baseurl + endpoint]; and the signature a sent request
    carries is the one computed over the path of its own URL. *)
Theorem signed_path_is_request_path g w k s test op st :
  let self := __init__ k s test in
  url_path (baseurl self ++ endpoint_of op) = api_url (endpoint_of op)
  /\ forall req,
       wire (run_op g w self op st).2 = wire st ++ [req] ->
       url req = baseurl self ++ endpoint_of op
       /\ exists nonce sig h,
            sign_spec s (verb_of op) (url_path (url req)) nonce (data_of w op)
            = Some sig
            /\ headers req = Some h
            /\ dict_lookup h (lit "api-expires") = Some (str_int nonce)
            /\ dict_lookup h (lit "api-signature") = Some sig.
Proof.
  intros self.
  assert (Hpath : url_path (baseurl self ++ endpoint_of op)
                  = api_url (endpoint_of op))
    by (destruct test, op; reflexivity).
  split; [exact Hpath|].
  intros req Hsent. apply sent_request in Hsent.
  apply prepare_inv in Hsent as (h & Hh & ->).
  apply get_headers_inv in Hh as (nonce & sig & _ & _ & Hsig & ->).
  split; [reflexivity|].
  exists nonce, sig. eexists. cbn [url headers]. rewrite Hpath.
  split; [exact Hsig|]. split; [reflexivity|]. split; reflexivity.
Qed.

Lemma signed_path_is_request_path_witness :
  url_path (url cancel_request) = lit "/api/v1/order/all"
  /\ exists nonce sig h,
       sign_spec (api_secret testnet_client) (lit "DELETE")
         (url_path (url cancel_request)) nonce (lit "") = Some sig
       /\ headers cancel_request = Some h
       /\ dict_lookup h (lit "api-expires") = Some (str_int nonce)
       /\ dict_lookup h (lit "api-signature") = Some sig.
Proof.
  destruct (signed_path_is_request_path repaired_globals rejecting
              (lit "KEY") (lit "chNOOS4KvNXR_Xq4k4c9qsfoKWvnDecLATCRlcBwyKDYnWgO")
              true CancelAllOrders fresh) as [_ H].
  destruct (H cancel_request) as [_ H'].
  - vm_compute. reflexivity.
  - split; [reflexivity | exact H'].
Defined.

(** C6, as claimed, fails: an answer of status 200 whose body is not JSON
    is not returned parsed; line 87 raises the [JSONDecodeError] of
    [requests], in [respond] itself and in a whole run of
    [cancel_all_orders]. *)
Lemma status_200_not_json_raises :
  respond (Response 200 (lit "<html>") None) fresh
  = (Raise (RequestsError JSONDecodeError), fresh)
  /\ cancel_all_orders repaired_globals garbled testnet_client fresh
     = (Raise (RequestsError JSONDecodeError), State [] [cancel_request]).
Proof. split; vm_compute; reflexivity. Qed.



(** ** Which requests carry the signer's headers *)

Lemma get_ohlc_eq g w self ticker timeframe st :
  get_ohlc g w self ticker timeframe st
  = match load_module_attr g "requests" "get" with
    | Raise e => (ohlc_handler g e, st)
    | Return _ =>
        let sent := State (stdout st)
                      (wire st ++ [ohlc_request self ticker timeframe]) in
        match http w (ohlc_request self ticker timeframe) with
        | Raise e => (ohlc_handler g e, sent)
        | Return r =>
            match response_json r with
            | Raise e => (ohlc_handler g e, sent)
            | Return v =>
                match format_ohlcv g w v with
                | Raise e => (ohlc_handler g e, sent)
                | Return rows => (Return rows, sent)
                end
            end
        end
    end.
Proof.
  assert (Hhandler : forall e st',
    (_ <~ lift (load_module_attr g "requests" "exceptions") ;;
     if isinstance e [ConnectionError; JSONDecodeError] then
       lift (raise_from g "ExchangeConnectionError"
         (lit "Failed to establish a connection to Bitmex. There is an error on their end")
         e)
     else
       _ <~ lift (load_module_attr g "requests" "exceptions") ;;
       if isinstance e [ReadTimeout; Timeout] then
         lift (raise_from g "ExchangeRequestTimeOut"
                 (lit "Connection with Bitmex has timed out") e)
       else raise e) st' = (ohlc_handler g e, st')).
  { intros e st'. unfold ohlc_handler, mbind', lift, raise.
    destruct (load_module_attr g "requests" "exceptions") as [[]|]; cbn [bind];
      [|reflexivity].
    destruct (isinstance e [ConnectionError; JSONDecodeError]); [reflexivity|].
    destruct (isinstance e [ReadTimeout; Timeout]); reflexivity. }
  unfold get_ohlc, try_except. fold (ohlc_request self ticker timeframe).
  unfold mbind' at 1, lift at 1.
  destruct (load_module_attr g "requests" "get") as [[]|]; [|apply Hhandler].
  unfold mbind' at 1, send. cbn [http].
  destruct (http w (ohlc_request self ticker timeframe)) as [r|];
    [|apply Hhandler].
  unfold mbind' at 1, lift at 1.
  destruct (response_json r) as [v|]; [|apply Hhandler].
  unfold lift at 1.
  destruct (format_ohlcv g w v); [reflexivity | apply Hhandler].
Qed.

Lemma get_ohlc_wire g w self ticker timeframe st :
  wire (get_ohlc g w self ticker timeframe st).2 = wire st
  \/ wire (get_ohlc g w self ticker timeframe st).2
     = wire st ++ [ohlc_request self ticker timeframe].
Proof.
  rewrite get_ohlc_eq.
  destruct (load_module_attr g "requests" "get"); [right | left; reflexivity].
  cbv zeta. destruct (http w _) as [r|]; [|reflexivity].
  destruct (response_json r) as [v|]; [|reflexivity].
  destruct (format_ohlcv g w v); reflexivity.
Qed.

(** C8, as claimed, fails: the request [get_ohlc] sends has no headers at
    all, so it does not carry the signer's. *)
Lemma get_ohlc_request_unsigned :
  wire (get_ohlc module_globals accepting testnet_client
          (lit "XBTUSD") (lit "1h") fresh).2
  = [ohlc_request testnet_client (lit "XBTUSD") (lit "1h")]
  /\ ~ signed (ohlc_request testnet_client (lit "XBTUSD") (lit "1h")).
Proof.
  split; [vm_compute; reflexivity|].
  intros (h & sig & Hh & _). discriminate Hh.
Qed.

(** C8, amended — the three order and cancel operations obtain their
    headers from [get_headers] and attach exactly those to the request they
    send; [get_ohlc] never calls the signer and sends its request without
    headers. *)
Theorem order_requests_signed_market_data_not g w self st :
  (forall op req,
     wire (run_op g w self op st).2 = wire st ++ [req] ->
     exists h,
       get_headers g w self (verb_of op) (endpoint_of op) (data_of w op)
       = Return h
       /\ headers req = Some h /\ signed req)
  /\ (forall ticker timeframe req,
        wire (get_ohlc g w self ticker timeframe st).2 = wire st ++ [req] ->
        headers req = None /\ ~ signed req).
Proof.
  split.
  - intros op req Hsent. apply sent_request in Hsent.
    apply prepare_inv in Hsent as (h & Hh & ->).
    exists h. split; [exact Hh|]. split; [reflexivity|].
    apply get_headers_inv in Hh as (nonce & sig & _ & _ & _ & ->).
    eexists _, sig. split; reflexivity.
  - intros ticker timeframe req Hsent.
    destruct (get_ohlc_wire g w self ticker timeframe st) as [H|H];
      rewrite H in Hsent.
    + exfalso. eapply wire_unchanged_not_sent; eauto.
    + apply app_inj_tail in Hsent as [_ <-]. split; [reflexivity|].
      intros (h & sig & Hh & _). discriminate Hh.
Qed.

Lemma order_requests_signed_market_data_not_witness :
  signed cancel_request
  /\ headers (ohlc_request testnet_client (lit "XBTUSD") (lit "1h")) = None.
Proof.
  destruct (order_requests_signed_market_data_not repaired_globals accepting
              testnet_client fresh) as [Hops Hohlc].
  split.
  - destruct (Hops CancelAllOrders cancel_request) as (h & _ & _ & Hs);
      [vm_compute; reflexivity | exact Hs].
  - destruct (Hohlc (lit "XBTUSD") (lit "1h")
                (ohlc_request testnet_client (lit "XBTUSD") (lit "1h")))
      as [Hn _]; [vm_compute; reflexivity | exact Hn].
Defined.

(** ** Failures of the market-data request *)

(** On the module as written neither condition can be raised: the two
    class names are bound nowhere. *)
Example get_ohlc_as_written :
  (get_ohlc module_globals silent testnet_client (lit "XBTUSD") (lit "1h") fresh).1
  = Raise (NameError "ExchangeRequestTimeOut")
  /\ (get_ohlc module_globals unreachable testnet_client (lit "XBTUSD") (lit "1h")
        fresh).1
     = Raise (NameError "ExchangeConnectionError").
Proof. split; vm_compute; reflexivity. Qed.

(** C5, as claimed, fails: a request that times out while connecting is a
    [Timeout] of [requests], and [get_ohlc] answers it with the
    connection-failure condition, because [ConnectTimeout] is also a
    [ConnectionError] and that clause comes first. *)
Lemma connect_timeout_raises_connection_condition :
  isinstance (RequestsError ConnectTimeout) [Timeout] = true
  /\ (get_ohlc with_exchange_errors unreachable testnet_client
        (lit "XBTUSD") (lit "1h") fresh).1
     = Raise (Raised "ExchangeConnectionError" connection_message
                (RequestsError ConnectTimeout)).
Proof. split; vm_compute; reflexivity. Qed.

(** C5, amended — with the two exception classes defined, [get_ohlc] maps
    a failure of its request [e] (raised by the transport, or the
    [JSONDecodeError] of a body that is not JSON) as follows: a
    [ConnectionError] (which includes [ConnectTimeout]) or a
    [JSONDecodeError] becomes the connection-failure condition; any other
    [Timeout] becomes the timeout-failure condition; and when the two
    classes differ neither outcome is the other condition. *)
Theorem get_ohlc_failure_conditions g w self ticker timeframe st conn tmo e :
  g !! "requests" = Some (Module "requests") ->
  g !! "ExchangeConnectionError" = Some (ExcClass conn) ->
  g !! "ExchangeRequestTimeOut" = Some (ExcClass tmo) ->
  http w (ohlc_request self ticker timeframe) = Raise e
  \/ (exists r, http w (ohlc_request self ticker timeframe) = Return r
                /\ body_json r = None /\ e = RequestsError JSONDecodeError) ->
  let out := (get_ohlc g w self ticker timeframe st).1 in
  (isinstance e [ConnectionError; JSONDecodeError] = true ->
   out = Raise (Raised conn connection_message e)
   /\ (conn <> tmo -> ~ raises_class out tmo))
  /\ (isinstance e [ConnectionError; JSONDecodeError] = false ->
      isinstance e [Timeout] = true ->
      out = Raise (Raised tmo timeout_message e)
      /\ (conn <> tmo -> ~ raises_class out conn)).
Proof.
  intros Hreq Hconn Htmo Hfail out.
  assert (Hout : out = ohlc_handler g e).
  { unfold out. rewrite get_ohlc_eq, (load_module_attr_bound _ _ _ Hreq).
    destruct Hfail as [He | (r & Hr & Hbody & ->)].
    - rewrite He. reflexivity.
    - rewrite Hr. unfold response_json. rewrite Hbody. reflexivity. }
  rewrite Hout. unfold ohlc_handler, raise_from, load.
  rewrite (load_module_attr_bound _ _ _ Hreq), Hconn, Htmo. cbn [bind].
  split.
  - intros ->. split; [reflexivity|].
    intros Hne (msg & cause & [= H _ _]). congruence.
  - intros -> Ht.
    assert (Ht' : isinstance e [ReadTimeout; Timeout] = true).
    { destruct e; try discriminate. simpl in *.
      rewrite orb_false_r in Ht. rewrite Ht. apply orb_true_r. }
    rewrite Ht'. split; [reflexivity|].
    intros Hne (msg & cause & [= H _ _]). congruence.
Qed.

Lemma get_ohlc_failure_conditions_witness :
  (get_ohlc with_exchange_errors silent testnet_client (lit "XBTUSD")
     (lit "1h") fresh).1
  = Raise (Raised "ExchangeRequestTimeOut" timeout_message
             (RequestsError ReadTimeout)).
Proof.
  refine (proj1 (proj2 (get_ohlc_failure_conditions with_exchange_errors silent
                          testnet_client (lit "XBTUSD") (lit "1h") fresh
                          "ExchangeConnectionError" "ExchangeRequestTimeOut"
                          (RequestsError ReadTimeout) _ _ _ _) _ _)).
  - reflexivity.
  - reflexivity.
  - reflexivity.
  - left. reflexivity.
  - reflexivity.
  - reflexivity.
Defined.

(** ** Normalising buckets *)

(** The example of the specification. *)
Example format_ohlcv_2021 w :
  format_ohlcv module_globals w (PList [bucket (lit "2021-01-01T00:00:00.000Z")])
  = Return [Ohlcv (PFloat (Finite 58001 (-1))) (PFloat (Finite 58041 (-1)))
              (PFloat (Finite 29050 0)) (PInt 28990) (PInt 1250300)
              1609459200000].
Proof. vm_compute. reflexivity. Qed.

Lemma map_result_Forall2 {A B} (f : A -> result B) l rows :
  map_result f l = Return rows -> Forall2 (fun a b => f a = Return b) l rows.
Proof.
  revert rows. induction l as [|a l IH]; simpl; intros rows.
  - intros [= <-]. constructor.
  - destruct (f a) as [b|] eqn:Hb; cbn [bind]; [|discriminate].
    destruct (map_result f l) as [bs|]; cbn [bind]; [|discriminate].
    intros [= <-]. constructor; auto.
Qed.

Lemma map_result_total {A B} (f : A -> result B) l :
  Forall (fun a => exists b, f a = Return b) l ->
  exists rows, map_result f l = Return rows.
Proof.
  induction 1 as [|a l [b Hb] _ [rows IH]]; simpl; [eauto|].
  rewrite Hb, IH. simpl. eauto.
Qed.

(** What one record holds: the five fields as they are in the bucket, and
    the float computation of line 165 for [time]. *)
Lemma format_item_fields g w item row :
  format_item g w item = Return row ->
  getitem item (lit "open") = Return (open row)
  /\ getitem item (lit "close") = Return (close row)
  /\ getitem item (lit "high") = Return (high row)
  /\ getitem item (lit "low") = Return (low row)
  /\ getitem item (lit "volume") = Return (volume row)
  /\ exists ts dt t,
       getitem item (lit "timestamp") = Return (PStr ts)
       /\ DT.fromisoformat (replace 90 (lit "+00:00") ts) = Return dt
       /\ DT.timestamp (localtime w) dt = Return t
       /\ Float.to_int (Float.mul t (Finite 1000 0)) = Return (time row).
Proof.
  unfold format_item.
  destruct (getitem item (lit "open")) as [o|]; cbn [bind]; [|discriminate].
  destruct (getitem item (lit "close")) as [c|]; cbn [bind]; [|discriminate].
  destruct (getitem item (lit "high")) as [h|]; cbn [bind]; [|discriminate].
  destruct (getitem item (lit "low")) as [l|]; cbn [bind]; [|discriminate].
  destruct (getitem item (lit "volume")) as [v|]; cbn [bind]; [|discriminate].
  destruct (load_member g "datetime" "datetime"); cbn [bind]; [|discriminate].
  destruct (getitem item (lit "timestamp")) as [ts|]; cbn [bind]; [|discriminate].
  destruct ts as [| | | |ts| |]; cbn [replace_Z bind]; try discriminate.
  destruct (DT.fromisoformat _) as [dt|] eqn:Hdt; cbn [bind]; [|discriminate].
  destruct (DT.timestamp _ dt) as [t|] eqn:Ht; cbn [bind]; [|discriminate].
  destruct (Float.to_int _) as [ms|] eqn:Hms; cbn [bind]; [|discriminate].
  intros [= <-]. cbn [open close high low volume time].
  repeat (split; [reflexivity|]). exists ts, dt, t. auto.
Qed.

(** When [format_ohlcv] returns on a list of N buckets, it returns N
    records, the i-th made from the i-th bucket. *)
Lemma format_ohlcv_rows g w items rows :
  format_ohlcv g w (PList items) = Return rows ->
  length rows = length items
  /\ forall i item, items !! i = Some item ->
       exists row, rows !! i = Some row /\ format_item g w item = Return row.
Proof.
  unfold format_ohlcv. cbn [iterate bind]. intros H.
  apply map_result_Forall2 in H. split.
  - symmetry. eapply Forall2_length; eauto.
  - intros i item Hi.
    destruct (Forall2_lookup_l _ _ _ _ _ H Hi) as (row & Hrow & Hf). eauto.
Qed.

(** C4 — claimed: each record's [time] is the epoch-millisecond value of
    the bucket's timestamp.  For the bucket of 2038-11-17T19:51:47.219Z
    that value is 2173636307219; line 165 computes it in floating point
    and truncates, and returns 2173636307218. *)
Theorem format_ohlcv_loses_a_millisecond w :
  epoch_millis (lit "2038-11-17T19:51:47.219Z") = Some 2173636307219
  /\ format_ohlcv module_globals w
       (PList [bucket (lit "2038-11-17T19:51:47.219Z")])
     = Return [Ohlcv (PFloat (Finite 58001 (-1))) (PFloat (Finite 58041 (-1)))
                 (PFloat (Finite 29050 0)) (PInt 28990) (PInt 1250300)
                 2173636307218].
Proof. split; vm_compute; reflexivity. Qed.

(** ** Timestamps without the [Z] suffix *)

Lemma replace_app old new s1 s2 :
  replace old new (s1 ++ s2) = replace old new s1 ++ replace old new s2.
Proof. unfold replace. apply flat_map_app. Qed.

(** C9, as claimed, fails: a timestamp with no zone designator is parsed
    as a naive datetime, which [timestamp()] reads in the local zone of the
    process; one hour east of Greenwich the record is an hour early. *)
Lemma naive_timestamp_read_as_local_time :
  format_ohlcv module_globals accepting
    (PList [bucket (lit "2021-01-01T00:00:00.000");
            bucket (lit "2021-01-01T00:00:00.000Z")])
  = Return [Ohlcv (PFloat (Finite 58001 (-1))) (PFloat (Finite 58041 (-1)))
              (PFloat (Finite 29050 0)) (PInt 28990) (PInt 1250300)
              1609455600000;
            Ohlcv (PFloat (Finite 58001 (-1))) (PFloat (Finite 58041 (-1)))
              (PFloat (Finite 29050 0)) (PInt 28990) (PInt 1250300)
              1609459200000].
Proof. vm_compute. reflexivity. Qed.


(** *** What the reader makes of the output of [json.dumps] *)

Module JsonTextFacts.
Import JsonText.

Lemma plain_inv c :
  plain c = true ->
  (c =? 34) = false /\ opens c = false /\ closes c = false /\ (c =? 58) = false.
Proof.
  unfold plain. destruct (c =? 34), (opens c), (closes c), (c =? 58);
    simpl; intros; try discriminate; auto.
Qed.

Lemma scan_plain x rest d last :
  forallb plain x = true -> scan (x ++ rest) Out d last = scan rest Out d last.
Proof.
  induction x as [|c x IH]; simpl; [reflexivity|].
  intros H. apply andb_prop in H as [Hc Hx].
  apply plain_inv in Hc as (-> & -> & -> & ->). auto.
Qed.

Lemma escaped_seq_app x y : escaped_seq x -> escaped_seq y -> escaped_seq (x ++ y).
Proof. induction 1; simpl; auto using escaped_seq. Qed.

Lemma scan_escaped_seq x rest cur d last :
  escaped_seq x ->
  scan (x ++ rest) (Str cur) d last = scan rest (Str (cur ++ x)) d last.
Proof.
  intros H. revert cur. induction H as [|c x H34 H92 _ IH|c x _ IH]; intros cur.
  - rewrite app_nil_r. reflexivity.
  - simpl. destruct (Z.eqb_spec c 92); [contradiction|].
    destruct (Z.eqb_spec c 34); [contradiction|].
    rewrite IH, <- app_assoc. reflexivity.
  - simpl. rewrite IH, <- !app_assoc. reflexivity.
Qed.

Lemma hex_digit_escaped d x :
  0 <= d < 16 -> escaped_seq x -> escaped_seq (hex_digit d :: x).
Proof.
  intros Hd Hx. pose proof (hex_digit_lower d Hd) as Hl. unfold lower_hex in Hl.
  apply escaped_char; [lia | lia | exact Hx].
Qed.

Lemma hex4_escaped n x : escaped_seq x -> escaped_seq (Json.hex4 n ++ x).
Proof.
  intros Hx. unfold Json.hex4. simpl.
  repeat apply hex_digit_escaped; try exact Hx; apply Z.mod_pos_bound; lia.
Qed.

Lemma escape_char_escaped c : escaped_seq (Json.escape_char c).
Proof.
  unfold Json.escape_char.
  repeat match goal with
         | |- context [?a =? ?b] =>
             destruct (Z.eqb_spec a b);
             [apply escaped_pair, escaped_nil|]
         end.
  destruct ((32 <=? c) && (c <=? 126)).
  - apply escaped_char; [assumption | assumption | apply escaped_nil].
  - destruct (c <? 65536).
    + apply escaped_pair. rewrite <- (app_nil_r (Json.hex4 c)).
      apply hex4_escaped, escaped_nil.
    + apply escaped_pair, hex4_escaped, escaped_pair.
      rewrite <- (app_nil_r (Json.hex4 _)). apply hex4_escaped, escaped_nil.
Qed.

Lemma escaped_flat_map s : escaped_seq (flat_map Json.escape_char s).
Proof.
  induction s; simpl; [constructor|].
  apply escaped_seq_app; auto using escape_char_escaped.
Qed.

(** A string of the output is read as one string. *)
Lemma scan_encode_str s rest d last :
  scan (Json.encode_str s ++ rest) Out d last
  = scan rest Out d
      (if (d =? 1)%nat then Some (flat_map Json.escape_char s) else last).
Proof.
  unfold Json.encode_str. rewrite <- !app_assoc. cbn [app scan Z.eqb Pos.eqb].
  rewrite scan_escaped_seq by apply escaped_flat_map.
  reflexivity.
Qed.

End JsonTextFacts.

Module DumpsFacts.
Import JsonText JsonTextFacts.

Lemma uint_plain d : forallb plain (lit (NilEmpty.string_of_uint d)) = true.
Proof.
  induction d; cbn [NilEmpty.string_of_uint]; rewrite ?lit_cons;
    cbn [forallb]; rewrite ?IHd; reflexivity.
Qed.

Lemma uint_plain' d : forallb plain (lit (NilZero.string_of_uint d)) = true.
Proof. destruct d; try reflexivity; apply uint_plain. Qed.

Lemma str_int_plain n : forallb plain (str_int n) = true.
Proof.
  unfold str_int. destruct (Z.to_int n) as [d|d]; cbn [NilZero.string_of_int].
  - apply uint_plain'.
  - rewrite lit_cons. cbn [forallb]. rewrite uint_plain'. reflexivity.
Qed.

Lemma passes_plain d x : forallb plain x = true -> passes d x.
Proof. intros H last rest. exists last. apply scan_plain, H. Qed.

Lemma passes_app d x y : passes d x -> passes d y -> passes d (x ++ y).
Proof.
  intros Hx Hy last rest. rewrite <- app_assoc.
  destruct (Hx last (y ++ rest)) as [l1 ->]. apply Hy.
Qed.

Lemma passes_join d parts :
  Forall (passes d) parts -> passes d (Json.join (lit ", ") parts).
Proof.
  induction 1 as [|p parts Hp Hparts IH]; [apply passes_plain; reflexivity|].
  destruct parts as [|q parts]; [exact Hp|].
  change (Json.join (lit ", ") (p :: q :: parts))
    with (p ++ lit ", " ++ Json.join (lit ", ") (q :: parts)).
  apply passes_app; [exact Hp|]. apply passes_app; [|exact IH].
  apply passes_plain. reflexivity.
Qed.

Lemma passes_encode_str d s : passes d (Json.encode_str s).
Proof. intros last rest. rewrite scan_encode_str. eauto. Qed.

(** Between a pair of brackets the text is read one level deeper. *)
Lemma passes_nested d o c x :
  opens o = true -> closes c = true -> passes (S d) x -> passes d ([o] ++ x ++ [c]).
Proof.
  intros Ho Hc Hx last rest.
  assert (Ho34 : (o =? 34) = false) by
    (unfold opens in Ho; destruct (Z.eqb_spec o 34); [subst; discriminate | reflexivity]).
  assert (Hc34 : (c =? 34) = false) by
    (unfold closes in Hc; destruct (Z.eqb_spec c 34); [subst; discriminate | reflexivity]).
  assert (Hco : opens c = false) by
    (unfold opens, closes in *;
     destruct (Z.eqb_spec c 125), (Z.eqb_spec c 93); subst; try reflexivity;
     discriminate).
  cbn [app scan]. rewrite Ho34, Ho. rewrite <- app_assoc.
  destruct (Hx last ([c] ++ rest)) as [l1 ->].
  cbn [app scan]. rewrite Hc34, Hco, Hc. eauto.
Qed.

Section WithRepr.
Variable repr : pyfloat -> pystr.
Hypothesis repr_plain : forall x, forallb plain (repr x) = true.

(** Below the outermost object, a colon names nothing. *)
Lemma passes_colon d : passes (S (S d)) (lit ": ").
Proof. intros last rest. exists last. reflexivity. Qed.

(** Every value of the output, at any depth, is read without a trace. *)
Lemma passes_dumps v : forall d, passes (S d) (Json.dumps repr v).
Proof.
  induction v as [| b | n | x | s | l IH | m IH] using pyval_nested_ind;
    intros d; cbn [Json.dumps].
  - apply passes_plain. reflexivity.
  - apply passes_plain. destruct b; reflexivity.
  - apply passes_plain, str_int_plain.
  - apply passes_plain. destruct x as [? ?|[]|]; auto.
  - apply passes_encode_str.
  - apply (passes_nested (S d) 91 93); [reflexivity | reflexivity |].
    apply passes_join. rewrite Forall_map. eapply Forall_impl; [exact IH|].
    intros v Hv. apply Hv.
  - apply (passes_nested (S d) 123 125); [reflexivity | reflexivity |].
    apply passes_join. rewrite Forall_map. eapply Forall_impl; [exact IH|].
    intros [k v] Hv. cbn [fst snd] in *.
    apply passes_app; [apply passes_encode_str|].
    apply passes_app; [apply passes_colon | apply Hv].
Qed.

(** One member of the outermost object names its key. *)
Lemma scan_member k v last rest :
  exists last',
    scan (Json.encode_str k ++ lit ": " ++ Json.dumps repr v ++ rest) Out 1 last
    = (names ← scan rest Out 1 last';
       Some (flat_map Json.escape_char k :: names)).
Proof.
  rewrite scan_encode_str. cbn [Nat.eqb].
  change (lit ": " ++ Json.dumps repr v ++ rest)
    with (58 :: 32 :: Json.dumps repr v ++ rest).
  cbn [scan Z.eqb Pos.eqb opens closes orb Nat.eqb].
  destruct (passes_dumps v 0 None rest) as [last' ->]. eauto.
Qed.

Lemma scan_members m : forall last rest,
  exists last',
    scan (Json.join (lit ", ") (map (member_text repr) m) ++ rest) Out 1 last
    = (names ← scan rest Out 1 last';
       Some (map (fun kv => flat_map Json.escape_char kv.1) m ++ names)).
Proof.
  induction m as [|[k v] m IH]; intros last rest.
  - exists last. cbn [map Json.join app]. destruct (scan rest Out 1 last); reflexivity.
  - destruct m as [|kv m].
    + cbn [map Json.join]. unfold member_text. cbn [fst snd].
      rewrite <- !app_assoc.
      destruct (scan_member k v last rest) as [last' ->]. exists last'.
      destruct (scan rest Out 1 last'); reflexivity.
    + change (Json.join (lit ", ") (map (member_text repr) ((k, v) :: kv :: m)))
        with (member_text repr (k, v) ++ lit ", "
              ++ Json.join (lit ", ") (map (member_text repr) (kv :: m))).
      unfold member_text at 1. cbn [fst snd]. rewrite <- !app_assoc.
      destruct (scan_member k v last
                  (lit ", " ++ Json.join (lit ", ") (map (member_text repr) (kv :: m))
                   ++ rest)) as [l1 ->].
      rewrite scan_plain by reflexivity.
      destruct (IH l1 rest) as [last' ->]. exists last'.
      destruct (scan rest Out 1 last'); reflexivity.
Qed.

(** The members the reader finds in the text of a dict are the keys of
    the dict, in order. *)
Lemma member_names_dumps m :
  member_names (Json.dumps repr (PDict m))
  = Some (map (fun kv => flat_map Json.escape_char kv.1) m).
Proof.
  unfold member_names. cbn [Json.dumps].
  change (map (fun kv => Json.encode_str kv.1 ++ lit ": " ++ Json.dumps repr kv.2) m)
    with (map (member_text repr) m).
  cbn [app scan Z.eqb Pos.eqb opens closes orb].
  destruct (scan_members m None [125]) as [last' ->].
  cbn [scan Z.eqb Pos.eqb opens closes orb mbind option_bind].
  rewrite app_nil_r. reflexivity.
Qed.

End WithRepr.
End DumpsFacts.

(** ** The [price] field of an order *)

Lemma market_order_text repr symbol order_qty side :
  (forall x, forallb JsonText.plain (repr x) = true) ->
  JsonText.member_names
    (Json.dumps repr (PDict (place_market_order_dict symbol order_qty side)))
  = Some market_order_members.
Proof. intros H. rewrite (DumpsFacts.member_names_dumps repr H). reflexivity. Qed.

Lemma limit_order_text repr symbol order_qty price side ord_type :
  (forall x, forallb JsonText.plain (repr x) = true) ->
  JsonText.member_names
    (Json.dumps repr
       (PDict (post_order_dict symbol order_qty price side ord_type)))
  = Some limit_order_members.
Proof. intros H. rewrite (DumpsFacts.member_names_dumps repr H). reflexivity. Qed.

(** C7 — for every input, the JSON text that [place_market_order] builds
    has the members [symbol], [orderQty], [side] and [ordType] and so no
    [price], and the JSON text that [post_order] builds has [price] among
    its members, with the argument [price] as its value.  ([float.__repr__]
    writes no quote, bracket, brace or colon.) *)
Theorem market_body_without_price_limit_body_with repr
    symbol order_qty price side ord_type :
  (forall x, forallb JsonText.plain (repr x) = true) ->
  (JsonText.member_names
     (Json.dumps repr (PDict (place_market_order_dict symbol order_qty side)))
   = Some market_order_members
   /\ ~ In (lit "price") market_order_members
   /\ dict_lookup (place_market_order_dict symbol order_qty side) (lit "price")
      = None)
  /\ (JsonText.member_names
        (Json.dumps repr
           (PDict (post_order_dict symbol order_qty price side ord_type)))
      = Some limit_order_members
      /\ In (lit "price") limit_order_members
      /\ dict_lookup (post_order_dict symbol order_qty price side ord_type)
           (lit "price")
         = Some price).
Proof.
  intros H. split; split.
  - apply market_order_text, H.
  - split; [|reflexivity].
    unfold market_order_members. simpl. intros [E|[E|[E|[E|[]]]]]; discriminate E.
  - apply limit_order_text, H.
  - split; [|reflexivity]. right. right. left. reflexivity.
Qed.

Lemma market_body_without_price_limit_body_with_witness :
  JsonText.member_names
    (Json.dumps (fun _ => lit "1.5")
       (PDict (place_market_order_dict (PStr (lit "XBTUSD")) (PInt 10)
                 (PStr (lit "Buy")))))
  = Some market_order_members
  /\ JsonText.member_names
       (Json.dumps (fun _ => lit "1.5")
          (PDict (post_order_dict (PStr (lit "XBTUSD")) (PInt 10)
                    (PFloat (Finite 3 (-1))) (PStr (lit "Buy"))
                    (PStr (lit "Limit")))))
     = Some limit_order_members.
Proof.
  destruct (market_body_without_price_limit_body_with (fun _ => lit "1.5")
              (PStr (lit "XBTUSD")) (PInt 10) (PFloat (Finite 3 (-1)))
              (PStr (lit "Buy")) (PStr (lit "Limit")))
    as [[Hm _] [Hl _]].
  - intros x. reflexivity.
  - split; [exact Hm | exact Hl].
Defined.

(** C10 — whatever [ord_type] is, ['Market'] included, the body that
    [post_order] builds on lines 74-81 has [price] among its members, and
    the body that [place_market_order] builds on lines 130-136 has not.
    [post_order] is the building and signing of one request followed, if
    that succeeds, by sending it; the request built, and so every request
    sent, has that body as its data.  ([float.__repr__] writes no quote,
    bracket, brace or colon.) *)
Theorem post_order_always_sends_price g w self st
    symbol order_qty price side ord_type :
  (forall x, forallb JsonText.plain (float_repr w x) = true) ->
  let body :=
    Json.dumps (float_repr w)
      (PDict (post_order_dict symbol order_qty price side ord_type)) in
  let market :=
    Json.dumps (float_repr w)
      (PDict (place_market_order_dict symbol order_qty side)) in
  let op := PostOrder symbol order_qty price side ord_type in
  JsonText.member_names body = Some limit_order_members
  /\ In (lit "price") limit_order_members
  /\ JsonText.member_names market = Some market_order_members
  /\ ~ In (lit "price") market_order_members
  /\ post_order g w self symbol order_qty price side ord_type st
     = match prepare g w self op with
       | Raise e => (Raise e, st)
       | Return req => settle w req st
       end
  /\ (forall req, prepare g w self op = Return req -> data req = Some body)
  /\ (forall req,
        wire (post_order g w self symbol order_qty price side ord_type st).2
        = wire st ++ [req] ->
        data req = Some body)
  /\ (forall req,
        wire (place_market_order g w self symbol order_qty side st).2
        = wire st ++ [req] ->
        data req = Some market).
Proof.
  intros H body market op.
  split; [apply limit_order_text, H|].
  split; [right; right; left; reflexivity|].
  split; [apply market_order_text, H|].
  split.
  { unfold market_order_members. simpl.
    intros [E|[E|[E|[E|[]]]]]; discriminate E. }
  split; [apply (run_op_eq g w self op)|].
  split; [|split]; intros req Hsent.
  - apply prepare_inv in Hsent as (h & _ & ->). reflexivity.
  - apply (sent_request g w self op) in Hsent.
    apply prepare_inv in Hsent as (h & _ & ->). reflexivity.
  - apply (sent_request g w self (PlaceMarketOrder symbol order_qty side))
      in Hsent.
    apply prepare_inv in Hsent as (h & _ & ->). reflexivity.
Qed.

Lemma post_order_always_sends_price_witness :
  JsonText.member_names
    (Json.dumps (fun _ => lit "1.5")
       (PDict (post_order_dict (PStr (lit "XBTUSD")) (PInt 10) PNone
                 (PStr (lit "Buy")) (PStr (lit "Market")))))
  = Some limit_order_members
  /\ data market_via_post_order
     = Some (Json.dumps (fun _ => lit "1.5")
               (PDict (post_order_dict (PStr (lit "XBTUSD")) (PInt 10) PNone
                         (PStr (lit "Buy")) (PStr (lit "Market"))))).
Proof.
  destruct (post_order_always_sends_price repaired_globals accepting
              testnet_client fresh (PStr (lit "XBTUSD")) (PInt 10) PNone
              (PStr (lit "Buy")) (PStr (lit "Market")))
    as (Hnames & _ & _ & _ & _ & _ & Hsent & _).
  - intros x. reflexivity.
  - split; [exact Hnames|].
    apply (Hsent market_via_post_order). vm_compute. reflexivity.
Defined.

(** ** Where the float computation of [time] is exact *)

Module FloatFacts.

Lemma floor_log2_unique n d k :
  0 <= k -> 0 < d -> d * 2 ^ k <= n < d * 2 ^ (k + 1) ->
  Float.floor_log2 n d = k.
Proof.
  intros Hk Hd [Hlo Hhi].
  assert (Hpk : 0 < 2 ^ k) by (apply Z.pow_pos_nonneg; lia).
  assert (Hn : 0 < n) by nia.
  pose proof (Z.log2_spec n Hn) as [Hn1 Hn2].
  pose proof (Z.log2_spec d Hd) as [Hd1 Hd2].
  pose proof (Z.log2_nonneg n) as Ha. pose proof (Z.log2_nonneg d) as Hb.
  set (a := Z.log2 n) in *. set (b := Z.log2 d) in *.
  replace (Z.succ a) with (a + 1) in Hn2 by lia.
  replace (Z.succ b) with (b + 1) in Hd2 by lia.
  assert (Hab1 : k <= a - b).
  { destruct (Z.le_gt_cases k (a - b)) as [|Hlt]; [assumption|exfalso].
    assert (Hp : 2 ^ (a + 1) <= 2 ^ (b + k)) by (apply Z.pow_le_mono_r; lia).
    rewrite (Z.pow_add_r 2 b k) in Hp by lia.
    assert (2 ^ b * 2 ^ k <= d * 2 ^ k) by (apply Z.mul_le_mono_nonneg_r; lia).
    lia. }
  assert (Hab2 : a - b <= k + 1).
  { destruct (Z.le_gt_cases (a - b) (k + 1)) as [|Hgt]; [assumption|exfalso].
    assert (Hp : 2 ^ (b + 1 + (k + 1)) <= 2 ^ a) by (apply Z.pow_le_mono_r; lia).
    rewrite (Z.pow_add_r 2 (b + 1) (k + 1)) in Hp by lia.
    assert (Hpk1 : 0 < 2 ^ (k + 1)) by (apply Z.pow_pos_nonneg; lia).
    assert (d * 2 ^ (k + 1) <= 2 ^ (b + 1) * 2 ^ (k + 1))
      by (apply Z.mul_le_mono_nonneg_r; lia).
    lia. }
  unfold Float.floor_log2. fold a b.
  destruct (Z.leb_spec 0 (a - b)); [|lia].
  assert (Hcase : a - b = k \/ a - b = k + 1) by lia.
  destruct Hcase as [-> | ->].
  - destruct (Z.ltb_spec n (d * 2 ^ k)); lia.
  - destruct (Z.ltb_spec n (d * 2 ^ (k + 1))); lia.
Qed.

Lemma nearest_even_error n d :
  0 < d -> 2 * Z.abs (n - Float.nearest_even n d * d) <= d.
Proof.
  intros Hd. unfold Float.nearest_even.
  pose proof (Z.div_mod n d) as Hdm. pose proof (Z.mod_pos_bound n d Hd) as Hr.
  destruct (Z.ltb_spec (2 * (n mod d)) d); [lia|].
  destruct (Z.ltb_spec d (2 * (n mod d))); [lia|].
  destruct (Z.even (n / d)); lia.
Qed.

Lemma nearest_even_unique n d q :
  0 < d -> 2 * Z.abs (n - q * d) < d -> Float.nearest_even n d = q.
Proof.
  intros Hd Hq. pose proof (nearest_even_error n d Hd) as He.
  set (p := Float.nearest_even n d) in *.
  assert (Z.abs (p - q) * d < d) by nia.
  nia.
Qed.

(** A ratio between [2 ^ k] and [2 ^ (k + 1)], [0 <= k < 52], is rounded
    on the grid of step [2 ^ (k - 52)]. *)
Lemma of_ratio_normal n d k :
  0 <= k < 52 -> 0 < d -> d * 2 ^ k <= n < d * 2 ^ (k + 1) ->
  Float.of_ratio n d
  = Finite (Float.nearest_even (n * 2 ^ (52 - k)) d) (k - 52).
Proof.
  intros Hk Hd Hn.
  assert (Hpk : 0 < 2 ^ k) by (apply Z.pow_pos_nonneg; lia).
  assert (Hn0 : 0 < n) by nia.
  unfold Float.of_ratio.
  destruct (Z.eqb_spec n 0); [lia|].
  rewrite (Z.abs_eq n) by lia.
  rewrite (floor_log2_unique n d k) by (assumption || lia).
  rewrite (Z.max_l (k - 52) (-1074)) by lia.
  destruct (Z.leb_spec 0 (k - 52)); [lia|].
  destruct (Z.leb_spec 1024 k); [lia|].
  destruct (Z.eqb_spec k 1023); [lia|].
  cbn [orb andb].
  replace (- (k - 52)) with (52 - k) by lia.
  replace (Z.sgn n) with 1 by lia.
  rewrite Z.mul_1_l. reflexivity.
Qed.

(** For a whole number of milliseconds [m] between 2 ^ 40 (2004-11-03)
    and 1000 * 2 ^ 31 (2038-01-19), dividing the microseconds by 10 ^ 6,
    multiplying by 1000 and truncating gives [m] back. *)
Lemma millis_exact m :
  2 ^ 40 <= m < 1000 * 2 ^ 31 ->
  (t <- Float.truediv_int (m * 1000) 1000000 ;;
   Float.to_int (Float.mul t (Finite 1000 0)))
  = Return m.
Proof.
  change (2 ^ 40) with 1099511627776. change (2 ^ 31) with 2147483648.
  intros Hm.
  destruct (Z.eq_dec m 1099511627776) as [-> | Hne];
    [vm_compute; reflexivity|].
  set (M := Float.nearest_even (m * 1000 * 2 ^ 22) 1000000).
  pose proof (nearest_even_error (m * 1000 * 2 ^ 22) 1000000 eq_refl) as HM.
  fold M in HM. change (2 ^ 22) with 4194304 in HM.
  assert (Ht : Float.of_ratio (m * 1000) 1000000 = Finite M (-22)).
  { rewrite (of_ratio_normal (m * 1000) 1000000 30); [reflexivity | lia | lia |].
    change (2 ^ 30) with 1073741824. change (2 ^ (30 + 1)) with 2147483648.
    lia. }
  unfold Float.truediv_int. rewrite Ht. cbn [bind Float.mul].
  unfold Float.of_dyadic. change (-22 + 0) with (-22).
  change (0 <=? -22) with false. cbv iota.
  change (2 ^ (- (-22))) with 4194304.
  rewrite (of_ratio_normal (M * 1000) 4194304 40); [| lia | lia |].
  - change (2 ^ (52 - 40)) with 4096. change (40 - 52) with (-12).
    rewrite (nearest_even_unique (M * 1000 * 4096) 4194304 (m * 4096))
      by lia.
    cbn [Float.to_int]. change (0 <=? -12) with false. cbv iota.
    change (2 ^ (- (-12))) with 4096.
    f_equal. apply Z.quot_mul. lia.
  - change (2 ^ 40) with 1099511627776.
    change (2 ^ (40 + 1)) with 2199023255552. lia.
Qed.

End FloatFacts.

Lemma in_exact_range_epoch_millis ts ms :
  in_exact_range ts ms -> epoch_millis ts = Some ms.
Proof.
  intros (dt & off & Hdt & Hoff & Hus & _). unfold epoch_millis.
  rewrite Hdt, Hoff, Hus. f_equal. apply Z.div_mul. lia.
Qed.

(** On such a timestamp line 165 computes the epoch-millisecond value. *)
Lemma format_item_in_range g w item o c h l v ts ms :
  g !! "datetime" = Some (Member "datetime" "datetime") ->
  getitem item (lit "open") = Return o ->
  getitem item (lit "close") = Return c ->
  getitem item (lit "high") = Return h ->
  getitem item (lit "low") = Return l ->
  getitem item (lit "volume") = Return v ->
  getitem item (lit "timestamp") = Return (PStr ts) ->
  in_exact_range ts ms ->
  format_item g w item = Return (Ohlcv o c h l v ms).
Proof.
  intros Hg Ho Hc Hh Hl Hv Hts (dt & off & Hdt & Hoff & Hus & Hms).
  unfold format_item.
  rewrite Ho, Hc, Hh, Hl, Hv, Hts, (load_member_bound _ _ _ Hg).
  cbn [bind replace_Z]. rewrite Hdt. cbn [bind].
  unfold DT.timestamp. rewrite Hoff, Hus.
  pose proof (FloatFacts.millis_exact ms Hms) as Hexact.
  destruct (Float.truediv_int (ms * 1000) 1000000) as [t|];
    cbn [bind] in *; [|discriminate].
  rewrite Hexact. reflexivity.
Qed.

(** Between 2004-11-03T19:53:47.776Z and 2038-01-19T03:14:08Z, on
    whole-millisecond timestamps that state their offset, [format_ohlcv]
    returns for N buckets exactly the N records the specification
    describes, in the order of the buckets. *)
Theorem format_ohlcv_in_range g w items rows :
  g !! "datetime" = Some (Member "datetime" "datetime") ->
  Forall2 normalised items rows ->
  format_ohlcv g w (PList items) = Return rows.
Proof.
  intros Hg H. unfold format_ohlcv. cbn [iterate bind].
  induction H as [|item row items rows Hrow _ IH]; [reflexivity|].
  destruct Hrow as (Ho & Hc & Hh & Hl & Hv & ts & Hts & Hrange).
  cbn [map_result].
  rewrite (format_item_in_range g w item _ _ _ _ _ ts (time row)
             Hg Ho Hc Hh Hl Hv Hts Hrange).
  cbn [bind]. rewrite IH. cbn [bind]. destruct row; reflexivity.
Qed.

Lemma format_ohlcv_in_range_witness :
  format_ohlcv module_globals accepting
    (PList [bucket (lit "2021-01-01T00:00:00.000Z")])
  = Return [Ohlcv (PFloat (Finite 58001 (-1))) (PFloat (Finite 58041 (-1)))
              (PFloat (Finite 29050 0)) (PInt 28990) (PInt 1250300)
              1609459200000].
Proof.
  apply format_ohlcv_in_range; [reflexivity|].
  constructor; [|constructor].
  repeat (split; [reflexivity|]).
  exists (lit "2021-01-01T00:00:00.000Z"). split; [reflexivity|].
  exists (Datetime 2021 1 1 0 0 0 0 (Some 0)), 0.
  split; [vm_compute; reflexivity|]. split; [reflexivity|].
  split; [reflexivity|]. split; [discriminate | reflexivity].
Defined.

(** ** The nonce *)

(** For a count of microseconds [u] between 2004-11-03T19:53:47.776Z and
    2038-01-19T03:14:08Z, dividing by 10 ^ 6 in floating point, multiplying
    by 1000 and truncating gives the whole milliseconds of [u]: what is
    below a millisecond is cut off, never rounded up. *)
Lemma millis_floor u :
  1000 * 2 ^ 40 <= u < 1000000 * 2 ^ 31 ->
  (t <- Float.truediv_int u 1000000 ;;
   Float.to_int (Float.mul t (Finite 1000 0)))
  = Return (u / 1000).
Proof.
  change (2 ^ 40) with 1099511627776. change (2 ^ 31) with 2147483648.
  intros Hu.
  set (M := Float.nearest_even (u * 2 ^ 22) 1000000).
  pose proof (FloatFacts.nearest_even_error (u * 2 ^ 22) 1000000 eq_refl) as HM.
  fold M in HM. change (2 ^ 22) with 4194304 in HM.
  assert (Ht : Float.of_ratio u 1000000 = Finite M (-22)).
  { rewrite (FloatFacts.of_ratio_normal u 1000000 30);
      [reflexivity | lia | lia |].
    change (2 ^ 30) with 1073741824. change (2 ^ (30 + 1)) with 2147483648.
    lia. }
  unfold Float.truediv_int. rewrite Ht. cbn [bind Float.mul].
  unfold Float.of_dyadic. change (-22 + 0) with (-22).
  change (0 <=? -22) with false. cbv iota.
  change (2 ^ (- (-22))) with 4194304.
  rewrite (FloatFacts.of_ratio_normal (M * 1000) 4194304 40); [| lia | lia |].
  - change (2 ^ (52 - 40)) with 4096. change (40 - 52) with (-12).
    set (M' := Float.nearest_even (M * 1000 * 4096) 4194304).
    pose proof (FloatFacts.nearest_even_error (M * 1000 * 4096) 4194304 eq_refl)
      as HM'.
    fold M' in HM'.
    cbn [Float.to_int]. change (0 <=? -12) with false. cbv iota.
    change (2 ^ (- (-12))) with 4096.
    pose proof (Z.div_mod u 1000 ltac:(lia)) as Hdm.
    pose proof (Z.mod_pos_bound u 1000 eq_refl) as Hr.
    f_equal. rewrite Z.quot_div_nonneg by lia.
    symmetry. apply (Z.div_unique M' 4096 (u / 1000) (M' - 4096 * (u / 1000))); lia.
  - change (2 ^ 40) with 1099511627776.
    change (2 ^ (40 + 1)) with 2199023255552. lia.
Qed.

Lemma wall_us_now w tz :
  DT.wall_us (Datetime (year (now w)) (month (now w)) (day (now w))
                (hour (now w)) (minute (now w)) (second (now w))
                (microsecond (now w)) tz)
  = clock_us w.
Proof. unfold clock_us. destruct (now w). reflexivity. Qed.


Lemma unlit_lit s : unlit (lit s) = s.
Proof.
  unfold unlit, lit. induction s as [|a s IH]; [reflexivity|].
  cbn [list_ascii_of_string fmap list_fmap string_of_list_ascii] in *.
  rewrite N2Z.id, ascii_N_embedding. f_equal. exact IH.
Qed.

(** [int(str(n)) = n]. *)
Lemma int_str_str_int n : int_str (str_int n) = Some n.
Proof.
  unfold int_str, str_int. rewrite unlit_lit, NilZero.isi.
  - cbn [fmap option_fmap option_map]. f_equal. apply DecimalZ.of_to.
  - destruct n; cbn [Z.to_int]; [discriminate| |discriminate].
    intros [= E]. exact (Unsigned.to_uint_nonnil _ E).
  - destruct n; cbn [Z.to_int]; [discriminate|discriminate|].
    intros [= E]. exact (Unsigned.to_uint_nonnil _ E).
Qed.

Lemma str_int_inj n m : str_int n = str_int m -> n = m.
Proof.
  intros H. apply (f_equal int_str) in H.
  rewrite !int_str_str_int in H. congruence.
Qed.

Lemma utc_millis_inv (g : gmap string binding) w nonce :
  utc_millis g w = Return nonce ->
  clock_in_range w -> nonce = clock_us w / 1000.
Proof.
  unfold utc_millis.
  destruct (load_member g "datetime" "datetime"); cbn [bind]; [|discriminate].
  destruct (load_member g "datetime" "timezone"); cbn [bind]; [|discriminate].
  unfold DT.timestamp. cbn [tzinfo]. rewrite Z.sub_0_r.
  rewrite wall_us_now.
  intros H Hw. rewrite (millis_floor _ Hw) in H. congruence.
Qed.

(** Whenever [get_headers] returns, it returns exactly the four headers, in
    the order of the source; [api-key] is the client's key as it is;
    [api-expires], read back as a decimal, is the very nonce under which
    [api-signature] signs verb, ['/api/v1' + endpoint] and body with the
    client's secret; and for a clock between 2004-11-03T19:53:47.776Z and
    2038-01-19T03:14:08Z that nonce is the reading of the clock in whole
    milliseconds. *)
Theorem get_headers_four_headers g w self verb endpoint body h :
  get_headers g w self verb endpoint body = Return h ->
  h.*1 = header_names
  /\ dict_lookup h (lit "api-key") = Some (api_key self)
  /\ dict_lookup h (lit "Content-Type") = Some (lit "application/json")
  /\ exists expires nonce,
       dict_lookup h (lit "api-expires") = Some expires
       /\ int_str expires = Some nonce
       /\ dict_lookup h (lit "api-signature")
          = sign_spec (api_secret self) verb (lit "/api/v1" ++ endpoint) nonce body
       /\ (clock_in_range w -> nonce = clock_us w / 1000).
Proof.
  intros H.
  destruct (get_headers_inv _ _ _ _ _ _ _ H) as (nonce & sig & Hn & _ & Hs & ->).
  split; [reflexivity|]. split; [reflexivity|]. split; [reflexivity|].
  exists (str_int nonce), nonce.
  split; [reflexivity|]. split; [apply int_str_str_int|].
  split; [symmetry; exact Hs|]. intros Hw. exact (utc_millis_inv _ _ _ Hn Hw).
Qed.

Lemma get_headers_four_headers_witness :
  exists h,
    get_headers repaired_globals accepting testnet_client (lit "DELETE")
      (lit "/order/all") (lit "") = Return h
    /\ h.*1 = header_names
    /\ dict_lookup h (lit "api-expires") = Some (lit "1609459200123").
Proof.
  exists (default [] (headers cancel_request)).
  assert (H : get_headers repaired_globals accepting testnet_client
                (lit "DELETE") (lit "/order/all") (lit "")
              = Return (default [] (headers cancel_request)))
    by (vm_compute; reflexivity).
  split; [exact H|].
  destruct (get_headers_four_headers _ _ _ _ _ _ _ H) as (Hn & _).
  split; [exact Hn | reflexivity].
Defined.

(** ** The nonce *)

Lemma utc_millis_clock (g : gmap string binding) w :
  clock_in_range w ->
  utc_millis g w
  = (load_member g "datetime" "datetime" ;;;
     load_member g "datetime" "timezone" ;;;
     Return (clock_us w / 1000)).
Proof.
  intros Hw. unfold utc_millis.
  destruct (load_member g "datetime" "datetime"); cbn [bind]; [|reflexivity].
  destruct (load_member g "datetime" "timezone"); cbn [bind]; [|reflexivity].
  unfold DT.timestamp. cbn [tzinfo]. rewrite Z.sub_0_r.
  rewrite wall_us_now. apply millis_floor, Hw.
Qed.

(** The nonce has the resolution of a millisecond: two calls of
    [get_headers] with the same arguments, at two readings of the clock
    within one millisecond, give the same headers, signature included; and
    a later reading never gives a smaller nonce. *)
Theorem get_headers_same_millisecond g w1 w2 self verb endpoint body :
  clock_in_range w1 -> clock_in_range w2 ->
  (clock_us w1 / 1000 = clock_us w2 / 1000 ->
   get_headers g w1 self verb endpoint body
   = get_headers g w2 self verb endpoint body)
  /\ (clock_us w1 <= clock_us w2 ->
      forall n1 n2, utc_millis g w1 = Return n1 -> utc_millis g w2 = Return n2 ->
      n1 <= n2).
Proof.
  intros H1 H2. split.
  - intros Hms. unfold get_headers.
    rewrite (utc_millis_clock g w1 H1), (utc_millis_clock g w2 H2), Hms.
    reflexivity.
  - intros Hle n1 n2 Hn1 Hn2.
    rewrite (utc_millis_inv _ _ _ Hn1 H1), (utc_millis_inv _ _ _ Hn2 H2).
    apply Z.div_le_mono; [lia | exact Hle].
Qed.

Lemma get_headers_same_millisecond_witness :
  get_headers repaired_globals accepting testnet_client (lit "DELETE")
    (lit "/order/all") (lit "")
  = get_headers repaired_globals same_millisecond testnet_client (lit "DELETE")
      (lit "/order/all") (lit "").
Proof.
  refine (proj1 (get_headers_same_millisecond repaired_globals accepting
                   same_millisecond testnet_client (lit "DELETE")
                   (lit "/order/all") (lit "") _ _) _).
  - split; vm_compute; [discriminate | reflexivity].
  - split; vm_compute; [discriminate | reflexivity].
  - reflexivity.
Defined.

(** ** What an order or cancel operation leaves behind *)

(** The request an operation sends is the one it signed: its method is the
    verb in the signature, its body (the empty text when it has none) is the
    body in the signature, its URL is the base URL followed by the endpoint
    whose ['/api/v1'] path is in the signature, and [api-expires] is the
    nonce in the signature.  It has no query parameters and no timeout. *)
Theorem order_request_is_the_signed_one g w self op st req :
  wire (run_op g w self op st).2 = wire st ++ [req] ->
  method req = verb_of op
  /\ url req = baseurl self ++ endpoint_of op
  /\ data req = body_of w op
  /\ params req = None /\ timeout req = None
  /\ exists h nonce,
       headers req = Some h
       /\ h.*1 = header_names
       /\ dict_lookup h (lit "api-key") = Some (api_key self)
       /\ dict_lookup h (lit "api-expires") = Some (str_int nonce)
       /\ dict_lookup h (lit "api-signature")
          = sign_spec (api_secret self) (method req)
              (lit "/api/v1" ++ endpoint_of op) nonce (default [] (data req)).
Proof.
  intros Hsent. apply sent_request in Hsent.
  apply prepare_inv in Hsent as (h & Hh & ->).
  apply get_headers_inv in Hh as (nonce & sig & _ & _ & Hsig & ->).
  cbn [method url data params timeout headers].
  repeat (split; [reflexivity|]).
  eexists _, nonce. repeat (split; [reflexivity|]).
  cbn [dict_lookup]. cbn. rewrite <- Hsig. unfold api_url.
  destruct op; reflexivity.
Qed.

Lemma order_request_is_the_signed_one_witness :
  method cancel_request = lit "DELETE" /\ timeout cancel_request = None.
Proof.
  destruct (order_request_is_the_signed_one repaired_globals rejecting
              testnet_client CancelAllOrders fresh cancel_request)
    as (Hm & _ & _ & _ & Ht & _).
  - vm_compute. reflexivity.
  - split; [exact Hm | exact Ht].
Defined.

(** An operation sends at most one request and prints at most one line,
    after what was sent and printed before; it returns normally only after
    sending its request, and it prints only when it returns [None]. *)
Theorem order_op_effects g w self op st :
  exists reqs lines,
    wire (run_op g w self op st).2 = wire st ++ reqs
    /\ stdout (run_op g w self op st).2 = stdout st ++ lines
    /\ (length reqs <= 1)%nat /\ (length lines <= 1)%nat
    /\ (reqs = [] -> lines = [] /\ exists e, (run_op g w self op st).1 = Raise e)
    /\ (lines <> [] -> (run_op g w self op st).1 = Return PNone).
Proof.
  rewrite run_op_eq. destruct (prepare g w self op) as [req|e].
  - unfold settle. destruct (http w req) as [r|e].
    + rewrite respond_eq. destruct (status_code r =? 200).
      * exists [req], []. cbn. rewrite app_nil_r.
        repeat split; try lia; try discriminate. intros H. contradiction.
      * destruct (fits_str (status_code r)).
        -- exists [req], [error_line r]. cbn.
           repeat split; try lia; discriminate.
        -- exists [req], []. cbn. rewrite app_nil_r.
           repeat split; try lia; try discriminate. intros H. contradiction.
    + exists [req], []. cbn. rewrite app_nil_r.
      repeat split; try lia; try discriminate. intros H. contradiction.
  - exists [], []. cbn. rewrite !app_nil_r.
    repeat split; try lia; eauto. intros H. contradiction.
Qed.

(** Once the request is on the wire, what the transport raises reaches the
    caller as it is, and so does the [JSONDecodeError] of a 200 answer whose
    body is not JSON: the order and cancel operations translate no
    exception, and print nothing on these paths. *)
Theorem order_op_errors_untranslated g w self op st req :
  wire (run_op g w self op st).2 = wire st ++ [req] ->
  (forall e, http w req = Raise e ->
     run_op g w self op st = (Raise e, State (stdout st) (wire st ++ [req])))
  /\ (forall r, http w req = Return r ->
        status_code r = 200 -> body_json r = None ->
        run_op g w self op st
        = (Raise (RequestsError JSONDecodeError),
           State (stdout st) (wire st ++ [req]))).
Proof.
  intros Hsent. apply sent_request in Hsent.
  rewrite run_op_eq, Hsent. unfold settle. split.
  - intros e ->. reflexivity.
  - intros r -> H200 Hb. rewrite respond_eq, H200. cbn.
    unfold response_json. rewrite Hb. reflexivity.
Qed.

Lemma order_op_errors_untranslated_witness :
  cancel_all_orders repaired_globals unreachable testnet_client fresh
  = (Raise (RequestsError ConnectTimeout), State [] [cancel_request]).
Proof.
  refine (proj1 (order_op_errors_untranslated repaired_globals unreachable
                   testnet_client CancelAllOrders fresh cancel_request _) _ _).
  - vm_compute. reflexivity.
  - reflexivity.
Defined.

(** No request leaves without its headers: when [get_headers] raises for
    the operation's verb, endpoint and body, the operation raises too, with
    nothing sent and nothing printed. *)
Theorem order_not_sent_when_signing_fails g w self op st e :
  get_headers g w self (verb_of op) (endpoint_of op) (data_of w op) = Raise e ->
  (run_op g w self op st).2 = st
  /\ exists e', (run_op g w self op st).1 = Raise e'.
Proof.
  intros He. rewrite run_op_eq. unfold prepare. rewrite He.
  destruct (match op with CancelAllOrders => _ | _ => _ end); cbn [bind];
    [|cbn; eauto].
  destruct (dumps_guard w op); cbn; eauto.
Qed.

Lemma order_not_sent_when_signing_fails_witness :
  (post_order module_globals accepting testnet_client (PStr (lit "XBTUSD"))
     (PInt 1) (PInt 30000) (PStr (lit "Buy")) (PStr (lit "Limit")) fresh).2
  = fresh.
Proof.
  refine (proj1 (order_not_sent_when_signing_fails module_globals accepting
                   testnet_client
                   (PostOrder (PStr (lit "XBTUSD")) (PInt 1) (PInt 30000)
                      (PStr (lit "Buy")) (PStr (lit "Limit")))
                   fresh (NameError "hmac") _)).
  vm_compute. reflexivity.
Defined.

(** ** The body of an order is plain ASCII *)

Module AsciiFacts.

Lemma ascii_text_app x y : ascii_text (x ++ y) = ascii_text x && ascii_text y.
Proof. apply forallb_app. Qed.

Lemma uint_ascii d : ascii_text (lit (NilEmpty.string_of_uint d)) = true.
Proof.
  induction d; cbn [NilEmpty.string_of_uint]; rewrite ?lit_cons;
    unfold ascii_text in *; cbn [forallb]; rewrite ?IHd; reflexivity.
Qed.

Lemma str_int_ascii n : ascii_text (str_int n) = true.
Proof.
  assert (H0 : forall d, ascii_text (lit (NilZero.string_of_uint d)) = true)
    by (intros d; destruct d; try reflexivity; apply uint_ascii).
  unfold str_int. destruct (Z.to_int n) as [d|d]; cbn [NilZero.string_of_int].
  - apply H0.
  - rewrite lit_cons. change (ascii_text (?c :: ?s)) with (ascii_text s).
    apply H0.
Qed.

Lemma hex_digit_ascii n : ascii_text [hex_digit (n mod 16)] = true.
Proof.
  pose proof (Z.mod_pos_bound n 16 eq_refl) as H.
  unfold ascii_text, hex_digit. cbn [forallb].
  destruct (Z.ltb_spec (n mod 16) 10); lia.
Qed.

Lemma hex4_ascii n : ascii_text (Json.hex4 n) = true.
Proof.
  unfold Json.hex4.
  change [?a; ?b; ?c; ?d] with ([a] ++ [b] ++ [c] ++ [d]).
  rewrite !ascii_text_app, !hex_digit_ascii. reflexivity.
Qed.

Lemma escape_char_ascii c : ascii_text (Json.escape_char c) = true.
Proof.
  unfold Json.escape_char.
  repeat match goal with
         | |- context [if ?c =? ?k then _ else _] =>
             destruct (c =? k); [reflexivity|]
         end.
  destruct (_ && _) eqn:Hc; [unfold ascii_text; cbn [forallb]; rewrite Hc; reflexivity|].
  destruct (c <? 65536); rewrite !ascii_text_app, !hex4_ascii; reflexivity.
Qed.

Lemma encode_str_ascii s : ascii_text (Json.encode_str s) = true.
Proof.
  unfold Json.encode_str. rewrite !ascii_text_app.
  replace (ascii_text (flat_map Json.escape_char s)) with true; [reflexivity|].
  symmetry. induction s as [|c s IH]; [reflexivity|].
  cbn [flat_map]. rewrite ascii_text_app, escape_char_ascii, IH. reflexivity.
Qed.

Lemma join_ascii parts :
  Forall (fun p => ascii_text p = true) parts ->
  ascii_text (Json.join (lit ", ") parts) = true.
Proof.
  induction 1 as [|p parts Hp Hparts IH]; [reflexivity|].
  destruct parts as [|q parts]; [exact Hp|].
  change (Json.join (lit ", ") (p :: q :: parts))
    with (p ++ lit ", " ++ Json.join (lit ", ") (q :: parts)).
  rewrite !ascii_text_app, Hp, IH. reflexivity.
Qed.

Lemma dumps_ascii repr v :
  (forall x, ascii_text (repr x) = true) ->
  ascii_text (Json.dumps repr v) = true.
Proof.
  intros Hrepr.
  induction v as [| b | n | x | s | l IH | m IH] using pyval_nested_ind;
    cbn [Json.dumps].
  - reflexivity.
  - destruct b; reflexivity.
  - apply str_int_ascii.
  - destruct x as [? ?|[]|]; auto.
  - apply encode_str_ascii.
  - rewrite !ascii_text_app, join_ascii; [reflexivity|].
    rewrite Forall_map. exact IH.
  - rewrite !ascii_text_app, join_ascii; [reflexivity|].
    rewrite Forall_map. eapply Forall_impl; [exact IH|].
    intros [k v] Hv. cbn [fst snd] in *.
    rewrite !ascii_text_app, encode_str_ascii, Hv. reflexivity.
Qed.


End AsciiFacts.

(** Whatever the arguments of [post_order] and [place_market_order], strings
    with control characters, quotes or lone surrogates included, the body
    they build consists of printable ASCII characters only, provided
    [float.__repr__] does. *)
Theorem order_body_is_ascii w op :
  (forall x, ascii_text (float_repr w x) = true) ->
  ascii_text (data_of w op) = true.
Proof.
  intros Hrepr. destruct op; cbn [data_of];
    [apply AsciiFacts.dumps_ascii, Hrepr
    | apply AsciiFacts.dumps_ascii, Hrepr | reflexivity].
Qed.

Lemma order_body_is_ascii_witness :
  ascii_text (data_of accepting surrogate_order) = true.
Proof.
  apply (order_body_is_ascii accepting surrogate_order).
  intros x. reflexivity.
Defined.

(** ** When an order is sent *)





(** ** What [get_ohlc] does with answers and failures *)

Lemma getitem_builtin v k e : getitem v k = Raise e -> is_builtin e = true.
Proof.
  destruct v; cbn [getitem]; try (intros [= <-]; reflexivity).
  destruct (dict_lookup d k); intros [= <-]. reflexivity.
Qed.

Lemma load_builtin (g : gmap string binding) name e :
  load g name = Raise e -> is_builtin e = true.
Proof. unfold load. destruct (g !! name); intros [= <-]. reflexivity. Qed.

Lemma load_member_builtin (g : gmap string binding) module name e :
  load_member g module name = Raise e -> is_builtin e = true.
Proof.
  unfold load_member. destruct (load g name) as [b|e'] eqn:Hb; cbn [bind].
  - destruct (decide _); intros [= <-]. reflexivity.
  - intros [= <-]. eapply load_builtin, Hb.
Qed.

Lemma load_module_attr_builtin (g : gmap string binding) name attr e :
  load_module_attr g name attr = Raise e -> is_builtin e = true.
Proof.
  unfold load_module_attr. destruct (load g name) as [b|e'] eqn:Hb; cbn [bind].
  - destruct (decide _); intros [= <-]. reflexivity.
  - intros [= <-]. eapply load_builtin, Hb.
Qed.

Lemma fromisoformat_builtin s e :
  DT.fromisoformat s = Raise e -> is_builtin e = true.
Proof.
  unfold DT.fromisoformat. cbv zeta.
  match goal with
  | |- match ?p with Some _ => _ | None => _ end = _ -> _ => destruct p as [dt|]
  end; [destruct (DT.valid dt)|]; intros [= <-]; reflexivity.
Qed.

Lemma truediv_int_builtin a b e :
  Float.truediv_int a b = Raise e -> is_builtin e = true.
Proof.
  unfold Float.truediv_int. destruct (Float.of_ratio a b); intros [= <-].
  reflexivity.
Qed.

Lemma timestamp_builtin local dt e :
  DT.timestamp local dt = Raise e -> is_builtin e = true.
Proof.
  unfold DT.timestamp, Float.of_int. destruct (tzinfo dt).
  - apply truediv_int_builtin.
  - destruct (Float.of_ratio (DT.mktime local dt) 1); cbn [bind];
      try (intros [= <-]; reflexivity);
      destruct (Float.truediv_int _ _) eqn:Hf; cbn [bind]; try discriminate;
      intros [= <-]; eapply truediv_int_builtin, Hf.
Qed.

Lemma to_int_builtin x e : Float.to_int x = Raise e -> is_builtin e = true.
Proof. destruct x; cbn [Float.to_int]; intros [= <-]; reflexivity. Qed.

Lemma replace_Z_builtin v e : replace_Z v = Raise e -> is_builtin e = true.
Proof. destruct v; cbn [replace_Z]; intros [= <-]; reflexivity. Qed.

Lemma iterate_builtin v e : iterate v = Raise e -> is_builtin e = true.
Proof. destruct v; cbn [iterate]; intros [= <-]; reflexivity. Qed.

Lemma format_item_builtin g w item e :
  format_item g w item = Raise e -> is_builtin e = true.
Proof.
  unfold format_item.
  repeat match goal with
         | |- context [getitem item ?k] =>
             let H := fresh "H" in
             destruct (getitem item k) eqn:H; cbn [bind];
             [|intros [= <-]; eapply getitem_builtin, H]
         | |- context [load_member ?g' ?m ?n] =>
             let H := fresh "H" in
             destruct (load_member g' m n) eqn:H; cbn [bind];
             [|intros [= <-]; eapply load_member_builtin, H]
         end.
  destruct (replace_Z _) eqn:Hr; cbn [bind];
    [|intros [= <-]; eapply replace_Z_builtin, Hr].
  destruct (DT.fromisoformat _) eqn:Hd; cbn [bind];
    [|intros [= <-]; eapply fromisoformat_builtin, Hd].
  destruct (DT.timestamp _ _) eqn:Ht; cbn [bind];
    [|intros [= <-]; eapply timestamp_builtin, Ht].
  destruct (Float.to_int _) eqn:Hi; cbn [bind];
    [discriminate | intros [= <-]; eapply to_int_builtin, Hi].
Qed.

Lemma map_result_raise {A B} (f : A -> result B) l e :
  map_result f l = Raise e -> exists a, In a l /\ f a = Raise e.
Proof.
  induction l as [|a l IH]; cbn [map_result]; [discriminate|].
  destruct (f a) as [b|e'] eqn:Hb; cbn [bind].
  - destruct (map_result f l) as [bs|e'] eqn:Hl; cbn [bind]; [discriminate|].
    intros [= <-]. destruct (IH eq_refl) as (a' & Ha' & He). exists a'.
    split; [right; exact Ha' | exact He].
  - intros [= <-]. exists a. split; [left; reflexivity | exact Hb].
Qed.

Lemma format_ohlcv_builtin g w v e :
  format_ohlcv g w v = Raise e -> is_builtin e = true.
Proof.
  unfold format_ohlcv. destruct (iterate v) as [items|e'] eqn:Hi; cbn [bind].
  - intros H. apply map_result_raise in H as (a & _ & Ha).
    eapply format_item_builtin, Ha.
  - intros [= <-]. eapply iterate_builtin, Hi.
Qed.

Lemma ohlc_handler_pass (g : gmap string binding) e :
  g !! "requests" = Some (Module "requests") ->
  isinstance e [ConnectionError; JSONDecodeError] = false ->
  isinstance e [ReadTimeout; Timeout] = false ->
  ohlc_handler g e = Raise e.
Proof.
  intros Hr H1 H2. unfold ohlc_handler.
  rewrite (load_module_attr_bound _ _ _ Hr), H1, H2. reflexivity.
Qed.

Lemma isinstance_builtin e classes : is_builtin e = true -> isinstance e classes = false.
Proof. destruct e; try discriminate; reflexivity. Qed.

(** [get_ohlc] prints nothing; once [requests] is bound it puts one
    request on the wire, the same on every path, failures included: there is
    no second attempt.  The key and the secret of the client take no part:
    a client with another key and secret and the same base URL behaves the
    same. *)
Theorem get_ohlc_one_request g w self ticker timeframe st :
  stdout (get_ohlc g w self ticker timeframe st).2 = stdout st
  /\ (g !! "requests" = Some (Module "requests") ->
      wire (get_ohlc g w self ticker timeframe st).2
      = wire st ++ [ohlc_request self ticker timeframe])
  /\ (forall key secret,
        get_ohlc g w (Client key secret (baseurl self)) ticker timeframe st
        = get_ohlc g w self ticker timeframe st).
Proof.
  split; [|split].
  - rewrite get_ohlc_eq.
    destruct (load_module_attr g "requests" "get"); [|reflexivity].
    cbv zeta. destruct (http w _) as [r|]; [|reflexivity].
    destruct (response_json r) as [v|]; [|reflexivity].
    destruct (format_ohlcv g w v); reflexivity.
  - intros Hr. rewrite get_ohlc_eq, (load_module_attr_bound _ _ _ Hr).
    cbv zeta. destruct (http w _) as [r|]; [|reflexivity].
    destruct (response_json r) as [v|]; [|reflexivity].
    destruct (format_ohlcv g w v); reflexivity.
  - intros key secret. destruct self. reflexivity.
Qed.

(** The status of the answer is not looked at: whenever the body of the
    answer is JSON that [format_ohlcv] accepts, [get_ohlc] returns what
    [format_ohlcv] makes of it, whatever the status code. *)
Theorem get_ohlc_ignores_status g w self ticker timeframe st r v rows :
  g !! "requests" = Some (Module "requests") ->
  http w (ohlc_request self ticker timeframe) = Return r ->
  body_json r = Some v ->
  format_ohlcv g w v = Return rows ->
  get_ohlc g w self ticker timeframe st
  = (Return rows,
     State (stdout st) (wire st ++ [ohlc_request self ticker timeframe])).
Proof.
  intros Hr Hhttp Hbody Hrows.
  rewrite get_ohlc_eq, (load_module_attr_bound _ _ _ Hr), Hhttp.
  unfold response_json. rewrite Hbody, Hrows. reflexivity.
Qed.

Lemma get_ohlc_ignores_status_witness :
  get_ohlc module_globals overloaded testnet_client (lit "XBTUSD") (lit "1h") fresh
  = (Return [], State [] [ohlc_request testnet_client (lit "XBTUSD") (lit "1h")]).
Proof.
  apply (get_ohlc_ignores_status module_globals overloaded testnet_client
           (lit "XBTUSD") (lit "1h") fresh
           (Response 503 (lit "[]") (Some (PList []))) (PList []) []);
    reflexivity.
Defined.

(** Only failures of the two handled families are translated.  Any other
    exception of the transport, and every exception [format_ohlcv] raises
    on the body of the answer ([KeyError], [TypeError], [ValueError],
    [AttributeError], [OverflowError], [NameError]), reaches the caller as
    it is. *)
Theorem get_ohlc_other_errors_pass g w self ticker timeframe st :
  g !! "requests" = Some (Module "requests") ->
  let sent := State (stdout st)
                (wire st ++ [ohlc_request self ticker timeframe]) in
  (forall e,
     http w (ohlc_request self ticker timeframe) = Raise e ->
     isinstance e [ConnectionError; JSONDecodeError] = false ->
     isinstance e [ReadTimeout; Timeout] = false ->
     get_ohlc g w self ticker timeframe st = (Raise e, sent))
  /\ (forall r v e,
        http w (ohlc_request self ticker timeframe) = Return r ->
        body_json r = Some v ->
        format_ohlcv g w v = Raise e ->
        is_builtin e = true
        /\ get_ohlc g w self ticker timeframe st = (Raise e, sent)).
Proof.
  intros Hr sent. split.
  - intros e He H1 H2.
    rewrite get_ohlc_eq, (load_module_attr_bound _ _ _ Hr), He.
    cbv zeta. rewrite (ohlc_handler_pass g e Hr H1 H2). reflexivity.
  - intros r v e Hhttp Hbody He.
    pose proof (format_ohlcv_builtin _ _ _ _ He) as Hb. split; [exact Hb|].
    rewrite get_ohlc_eq, (load_module_attr_bound _ _ _ Hr), Hhttp.
    unfold response_json. rewrite Hbody, He. cbv zeta.
    rewrite (ohlc_handler_pass g e Hr); auto using isinstance_builtin.
Qed.

Lemma get_ohlc_other_errors_pass_witness :
  (get_ohlc with_exchange_errors looping testnet_client (lit "XBTUSD")
     (lit "1h") fresh).1
  = Raise (RequestsError TooManyRedirects).
Proof.
  refine (f_equal fst
            (proj1 (get_ohlc_other_errors_pass with_exchange_errors looping
                      testnet_client (lit "XBTUSD") (lit "1h") fresh _)
               (RequestsError TooManyRedirects) _ _ _));
    reflexivity.
Defined.

(** An answer that is JSON but not a list is not recognised as a failure
    of the exchange.  An empty object or string gives the empty list; any
    other object or string, so every error object of the exchange, gives
    [TypeError], and so does a number, a boolean or null; none of them
    gives one of the two conditions. *)
Theorem get_ohlc_answer_not_a_list g w self ticker timeframe st r v :
  g !! "requests" = Some (Module "requests") ->
  http w (ohlc_request self ticker timeframe) = Return r ->
  body_json r = Some v ->
  (forall l, v <> PList l) ->
  let out := (get_ohlc g w self ticker timeframe st).1 in
  (v = PDict [] \/ v = PStr [] -> out = Return [])
  /\ (v <> PDict [] -> v <> PStr [] -> exists what, out = Raise (TypeError what)).
Proof.
  intros Hr Hhttp Hbody Hv out.
  assert (Hout : out = match format_ohlcv g w v with
                       | Return rows => Return rows
                       | Raise e => ohlc_handler g e
                       end).
  { unfold out. rewrite get_ohlc_eq, (load_module_attr_bound _ _ _ Hr), Hhttp.
    unfold response_json. rewrite Hbody. cbv zeta.
    destruct (format_ohlcv g w v); reflexivity. }
  assert (Hpass : forall what, ohlc_handler g (TypeError what)
                               = Raise (TypeError what))
    by (intros what; apply ohlc_handler_pass; auto).
  rewrite Hout. split.
  - intros [-> | ->]; reflexivity.
  - intros Hd Hs.
    destruct v as [| b | n | x | [|c s] | l | [|[k x] d]];
      try contradiction; try (eexists; apply Hpass).
    exfalso. eapply Hv. reflexivity.
Qed.

Lemma get_ohlc_answer_not_a_list_witness :
  exists what,
    (get_ohlc with_exchange_errors refusing testnet_client (lit "XBTUSD")
       (lit "1h") fresh).1 = Raise (TypeError what).
Proof.
  refine (proj2 (get_ohlc_answer_not_a_list with_exchange_errors refusing
                   testnet_client (lit "XBTUSD") (lit "1h") fresh
                   (Response 404 (Json.dumps (fun _ => []) error_answer)
                      (Some error_answer)) error_answer _ _ _ _) _ _);
    try reflexivity; discriminate.
Defined.

(** On the module as written, [get_ohlc] never raises either of its two
    conditions: no class is bound to their names, so a failure of either
    handled family ends in [NameError] for the name of the condition. *)
Theorem get_ohlc_conditions_unbound g w self ticker timeframe st e :
  g !! "requests" = Some (Module "requests") ->
  g !! "ExchangeConnectionError" = None ->
  g !! "ExchangeRequestTimeOut" = None ->
  http w (ohlc_request self ticker timeframe) = Raise e
  \/ (exists r, http w (ohlc_request self ticker timeframe) = Return r
                /\ body_json r = None /\ e = RequestsError JSONDecodeError) ->
  let out := (get_ohlc g w self ticker timeframe st).1 in
  (isinstance e [ConnectionError; JSONDecodeError] = true ->
   out = Raise (NameError "ExchangeConnectionError"))
  /\ (isinstance e [ConnectionError; JSONDecodeError] = false ->
      isinstance e [ReadTimeout; Timeout] = true ->
      out = Raise (NameError "ExchangeRequestTimeOut")).
Proof.
  intros Hr Hc Ht Hfail out.
  assert (Hout : out = ohlc_handler g e).
  { unfold out. rewrite get_ohlc_eq, (load_module_attr_bound _ _ _ Hr).
    destruct Hfail as [He | (r & Hhttp & Hbody & ->)].
    - rewrite He. reflexivity.
    - rewrite Hhttp. unfold response_json. rewrite Hbody. reflexivity. }
  rewrite Hout. unfold ohlc_handler, raise_from, load.
  rewrite (load_module_attr_bound _ _ _ Hr), Hc, Ht. cbn [bind].
  split; [intros -> | intros -> ->]; reflexivity.
Qed.

Lemma get_ohlc_conditions_unbound_witness :
  (get_ohlc module_globals unreachable testnet_client (lit "XBTUSD") (lit "1h")
     fresh).1
  = Raise (NameError "ExchangeConnectionError").
Proof.
  refine (proj1 (get_ohlc_conditions_unbound module_globals unreachable
                   testnet_client (lit "XBTUSD") (lit "1h") fresh
                   (RequestsError ConnectTimeout) _ _ _ _) _);
    try reflexivity.
  left. reflexivity.
Defined.

(** ** Lists of buckets *)

Lemma map_result_app {A B} (f : A -> result B) l1 l2 :
  map_result f (l1 ++ l2)
  = (r1 <- map_result f l1 ;; r2 <- map_result f l2 ;; Return (r1 ++ r2)).
Proof.
  induction l1 as [|a l1 IH]; cbn [app map_result bind].
  - destruct (map_result f l2); reflexivity.
  - destruct (f a) as [b|]; cbn [bind]; [|reflexivity].
    rewrite IH. destruct (map_result f l1); cbn [bind]; [|reflexivity].
    destruct (map_result f l2); reflexivity.
Qed.

(** [format_ohlcv] works bucket by bucket, from the first to the last:
    the records of a list made of two parts are the records of the first
    part followed by those of the second, and the exception, if any, is the
    one of the first bucket that fails; there is no partial result. *)
Theorem format_ohlcv_app g w a b :
  format_ohlcv g w (PList (a ++ b))
  = (ra <- format_ohlcv g w (PList a) ;;
     rb <- format_ohlcv g w (PList b) ;;
     Return (ra ++ rb)).
Proof. unfold format_ohlcv. cbn [iterate bind]. apply map_result_app. Qed.

Lemma format_item_missing_key g w d pre k post :
  g !! "datetime" = Some (Member "datetime" "datetime") ->
  ohlcv_keys = pre ++ k :: post ->
  Forall (fun k' => exists x, dict_lookup d k' = Some x) pre ->
  dict_lookup d k = None ->
  format_item g w (PDict d) = Raise (KeyError k).
Proof.
  intros Hg Hk Hpre Hnone. unfold ohlcv_keys in Hk.
  unfold format_item. cbn [getitem]. rewrite (load_member_bound _ _ _ Hg).
  do 6 (destruct pre as [|? pre]; cbn [app] in Hk;
        [injection Hk as <- _; rewrite Hnone; reflexivity|];
        injection Hk as <- Hk;
        apply List.Forall_cons_iff in Hpre as [[? Hx] Hpre];
        rewrite Hx; clear Hx; cbn [bind]).
  destruct pre; discriminate Hk.
Qed.

(** A bucket that lacks one of the six keys makes the whole call raise
    [KeyError] for the first missing key, in the order open, close, high,
    low, volume, timestamp, whatever buckets follow it; the buckets before
    it are normalised and then dropped. *)
Theorem format_ohlcv_missing_key g w good d rest pre k post :
  g !! "datetime" = Some (Member "datetime" "datetime") ->
  Forall (fun item => exists row, format_item g w item = Return row) good ->
  ohlcv_keys = pre ++ k :: post ->
  Forall (fun k' => exists x, dict_lookup d k' = Some x) pre ->
  dict_lookup d k = None ->
  format_ohlcv g w (PList (good ++ PDict d :: rest)) = Raise (KeyError k).
Proof.
  intros Hg Hgood Hk Hpre Hnone.
  unfold format_ohlcv. cbn [iterate bind]. rewrite map_result_app.
  destruct (map_result_total _ _ Hgood) as [rows ->]. cbn [bind map_result].
  rewrite (format_item_missing_key g w d pre k post Hg Hk Hpre Hnone).
  reflexivity.
Qed.

Lemma format_ohlcv_missing_key_witness :
  format_ohlcv module_globals accepting
    (PList [bucket (lit "2021-01-01T00:00:00.000Z"); bucket_without_volume;
            bucket (lit "2021-01-01T01:00:00.000Z")])
  = Raise (KeyError (lit "volume")).
Proof.
  apply (format_ohlcv_missing_key module_globals accepting
           [bucket (lit "2021-01-01T00:00:00.000Z")] _
           [bucket (lit "2021-01-01T01:00:00.000Z")]
           [lit "open"; lit "close"; lit "high"; lit "low"]
           (lit "volume") [lit "timestamp"]).
  - reflexivity.
  - constructor; [|constructor]. eexists. vm_compute. reflexivity.
  - reflexivity.
  - repeat (constructor; [eexists; reflexivity|]). constructor.
  - reflexivity.
Defined.

(** ** Timestamps below the millisecond *)

Lemma format_item_time g w item row ts u :
  format_item g w item = Return row ->
  getitem item (lit "timestamp") = Return (PStr ts) ->
  epoch_micros ts = Some u ->
  1000 * 2 ^ 40 <= u < 1000000 * 2 ^ 31 ->
  time row = u / 1000 /\ epoch_millis ts = Some (time row).
Proof.
  intros Hrow Hts Hu Hrange.
  apply format_item_fields in Hrow
    as (_ & _ & _ & _ & _ & ts' & dt & t & Hts' & Hdt & Ht & Hms).
  rewrite Hts in Hts'. injection Hts' as <-.
  unfold epoch_micros in Hu. unfold epoch_millis. rewrite Hdt in *.
  unfold DT.timestamp in Ht.
  destruct (tzinfo dt) as [off|]; [|discriminate]. injection Hu as Hu.
  rewrite Hu in *.
  pose proof (millis_floor u Hrange) as Hfl. rewrite Ht in Hfl.
  cbn [bind] in Hfl. rewrite Hms in Hfl. injection Hfl as Hfl.
  split; [exact Hfl | f_equal; symmetry; exact Hfl].
Qed.

(** For timestamps that state their offset from UTC and lie between
    2004-11-03T19:53:47.776Z and 2038-01-19T03:14:08Z, digits below the
    millisecond included, the float computation of line 165 gives the whole
    milliseconds since the epoch: what is below the millisecond is cut off,
    in every record [format_ohlcv] returns. *)
Theorem format_ohlcv_time_truncates g w items rows :
  format_ohlcv g w (PList items) = Return rows ->
  Forall2 (fun item row =>
             forall ts u,
               getitem item (lit "timestamp") = Return (PStr ts) ->
               epoch_micros ts = Some u ->
               1000 * 2 ^ 40 <= u < 1000000 * 2 ^ 31 ->
               time row = u / 1000 /\ epoch_millis ts = Some (time row))
    items rows.
Proof.
  unfold format_ohlcv. cbn [iterate bind]. intros H.
  apply map_result_Forall2 in H.
  eapply Forall2_impl; [exact H|].
  intros item row Hrow ts u. apply format_item_time with g w. exact Hrow.
Qed.

Lemma format_ohlcv_time_truncates_witness :
  Forall2 (fun item row =>
             forall ts u,
               getitem item (lit "timestamp") = Return (PStr ts) ->
               epoch_micros ts = Some u ->
               1000 * 2 ^ 40 <= u < 1000000 * 2 ^ 31 ->
               time row = u / 1000 /\ epoch_millis ts = Some (time row))
    [bucket (lit "2021-01-01T00:00:00.999999Z")]
    [Ohlcv (PFloat (Finite 58001 (-1))) (PFloat (Finite 58041 (-1)))
       (PFloat (Finite 29050 0)) (PInt 28990) (PInt 1250300) 1609459200999].
Proof.
  apply (format_ohlcv_time_truncates module_globals accepting).
  vm_compute. reflexivity.
Defined.

(** ** Which inputs [generate_signature] rejects *)





(** ** The order and cancel operations on the module as written *)



(** ** Where requests go *)

(** A client made by [__init__] talks to one host only, the test network's
    when [test] is set and the production one otherwise, over https, and
    only to three endpoints below [/api/v1]: every request that any of the
    four methods puts on the wire has such a URL. *)
Theorem requests_go_to_the_chosen_host g w key secret test st req :
  (exists op,
     wire (run_op g w (__init__ key secret test) op st).2 = wire st ++ [req])
  \/ (exists ticker timeframe,
        wire (get_ohlc g w (__init__ key secret test) ticker timeframe st).2
        = wire st ++ [req]) ->
  exists endpoint,
    In endpoint endpoints
    /\ url req = host test ++ lit "/api/v1" ++ endpoint.
Proof.
  intros [[op Hsent] | (ticker & timeframe & Hsent)].
  - apply sent_request in Hsent. apply prepare_inv in Hsent as (h & _ & ->).
    exists (endpoint_of op). cbn [url].
    split; [destruct op; cbn; auto | destruct test; reflexivity].
  - destruct (get_ohlc_wire g w (__init__ key secret test) ticker timeframe st)
      as [H|H]; rewrite H in Hsent.
    + exfalso. eapply wire_unchanged_not_sent; eauto.
    + apply app_inj_tail in Hsent as [_ <-].
      exists (lit "/trade/bucketed").
      split; [cbn; auto | destruct test; reflexivity].
Qed.

Lemma requests_go_to_the_chosen_host_witness :
  exists endpoint,
    url cancel_request = host true ++ lit "/api/v1" ++ endpoint.
Proof.
  destruct (requests_go_to_the_chosen_host repaired_globals rejecting
              (lit "KEY") (lit "chNOOS4KvNXR_Xq4k4c9qsfoKWvnDecLATCRlcBwyKDYnWgO")
              true fresh cancel_request) as (endpoint & _ & H).
  - left. exists CancelAllOrders. vm_compute. reflexivity.
  - exists endpoint. exact H.
Defined.

(** ** Timestamps with the explicit offset [+00:00] *)

Lemma replace_without old new s : ~ In old s -> replace old new s = s.
Proof.
  unfold replace. induction s as [|c s IH]; [reflexivity|].
  intros Hc. cbn [flat_map]. destruct (Z.eqb_spec c old) as [->|_].
  - exfalso. apply Hc. left. reflexivity.
  - cbn [app]. f_equal. apply IH. intros H. apply Hc. right. exact H.
Qed.

Lemma split_offset_no_sign t hd :
  DT.split_offset t = (hd, None) ->
  hd = t /\ forall z, DT.split_offset (t ++ 43 :: z) = (t, Some (1, z)).
Proof.
  revert hd. induction t as [|c t IH]; intros hd; cbn [DT.split_offset app].
  - intros [= <-]. split; [reflexivity|]. intros z. reflexivity.
  - destruct (c =? 43); [discriminate|]. destruct (c =? 45); [discriminate|].
    destruct (DT.split_offset t) as [hd' tz']. intros [= <- ->].
    destruct (IH hd' eq_refl) as [-> Hz]. split; [reflexivity|].
    intros z. rewrite Hz. reflexivity.
Qed.

(** A valid date and time without a zone designator, followed by
    [+00:00], is the same date and time in UTC. *)
Lemma fromisoformat_utc s dt :
  DT.fromisoformat s = Return dt -> tzinfo dt = None -> (10 < length s)%nat ->
  DT.fromisoformat (s ++ lit "+00:00") = Return (as_utc dt).
Proof.
  intros Hdt Htz Hlen. unfold DT.fromisoformat in *. cbv zeta in *.
  rewrite take_app_le, drop_app_le by lia.
  destruct (DT.parse_date (take 10 s)) as [[[y m] d]|];
    cbn [mbind option_bind] in Hdt |- *; [|discriminate].
  destruct (drop 10 s) as [|sep t] eqn:Hdrop.
  { apply (f_equal length) in Hdrop. rewrite length_drop in Hdrop.
    cbn in Hdrop. lia. }
  cbn [app]. unfold DT.parse_time in *.
  destruct (DT.split_offset t) as [hd tz] eqn:Hsplit.
  destruct tz as [[sign z]|].
  - exfalso.
    destruct (DT.parse_hh_mm_ss_ff hd) as [[[[hh mm] ss] us]|];
      cbn [mbind option_bind] in Hdt; [|discriminate].
    destruct (DT.parse_offset sign z) as [off|];
      cbn [mbind option_bind] in Hdt; [|discriminate].
    destruct (DT.valid _); [|discriminate].
    injection Hdt as <-. discriminate Htz.
  - apply split_offset_no_sign in Hsplit as [-> Hz].
    change (lit "+00:00") with (43 :: lit "00:00"). rewrite Hz.
    assert (Hoff : DT.parse_offset 1 (lit "00:00") = Some 0)
      by (vm_compute; reflexivity).
    rewrite Hoff.
    destruct (DT.parse_hh_mm_ss_ff t) as [[[[hh mm] ss] us]|];
      cbn [mbind option_bind] in Hdt |- *.
    2: discriminate.

    change (DT.valid (Datetime y m d hh mm ss us (Some 0)))
      with (DT.valid (Datetime y m d hh mm ss us None)).
    destruct (DT.valid _); [|discriminate].
    injection Hdt as <-. reflexivity.
Qed.


(** C9, amended — a bucket whose timestamp is a valid date and time
    without a zone designator, followed by the explicit offset [+00:00]
    where the [Z] would stand, is parsed as that date and time in UTC, as
    the [Z]-suffixed one is, and gives the same record; between
    2004-11-03T19:53:47.776Z and 2038-01-19T03:14:08Z the [time] of that
    record is the epoch-millisecond value of the timestamp, whatever the
    local zone of the process. *)
Theorem explicit_offset_same_as_Z g w item itemZ s dt :
  (forall k, k <> lit "timestamp" -> getitem item k = getitem itemZ k) ->
  getitem item (lit "timestamp") = Return (PStr (s ++ lit "+00:00")) ->
  getitem itemZ (lit "timestamp") = Return (PStr (s ++ lit "Z")) ->
  DT.fromisoformat s = Return dt -> tzinfo dt = None ->
  (10 < length s)%nat -> ~ In 90 s ->
  DT.fromisoformat (replace 90 (lit "+00:00") (s ++ lit "+00:00"))
  = Return (as_utc dt)
  /\ DT.fromisoformat (replace 90 (lit "+00:00") (s ++ lit "Z"))
     = Return (as_utc dt)
  /\ format_item g w item = format_item g w itemZ
  /\ epoch_millis (s ++ lit "+00:00") = Some (DT.wall_us dt / 1000)
  /\ (1000 * 2 ^ 40 <= DT.wall_us dt < 1000000 * 2 ^ 31 ->
      format_item g w item
      = (o <- getitem item (lit "open") ;;
         c <- getitem item (lit "close") ;;
         h <- getitem item (lit "high") ;;
         l <- getitem item (lit "low") ;;
         v <- getitem item (lit "volume") ;;
         load_member g "datetime" "datetime" ;;;
         Return (Ohlcv o c h l v (DT.wall_us dt / 1000)))).
Proof.
  intros Hsame Hts HtsZ Hdt Htz Hlen HZ.
  pose proof (fromisoformat_utc s dt Hdt Htz Hlen) as Hutc.
  assert (Hplus : replace 90 (lit "+00:00") (s ++ lit "+00:00")
                  = s ++ lit "+00:00").
  { rewrite replace_app, (replace_without _ _ s HZ). reflexivity. }
  assert (HrZ : replace 90 (lit "+00:00") (s ++ lit "Z") = s ++ lit "+00:00").
  { rewrite replace_app, (replace_without _ _ s HZ). reflexivity. }
  assert (Hwall : DT.wall_us (as_utc dt) = DT.wall_us dt)
    by (destruct dt; reflexivity).
  split; [rewrite Hplus; exact Hutc|].
  split; [rewrite HrZ; exact Hutc|].
  split; [|split].
  - unfold format_item. rewrite Hts, HtsZ.
    rewrite !Hsame by (intros [=]).
    repeat match goal with
           | |- context [getitem itemZ ?k] =>
               destruct (getitem itemZ k); cbn [bind]; [|reflexivity]
           end.
    destruct (load_member g "datetime" "datetime"); cbn [bind]; [|reflexivity].
    cbn [replace_Z bind]. rewrite Hplus, HrZ. reflexivity.
  - unfold epoch_millis. rewrite Hplus, Hutc. cbn [tzinfo as_utc].
    rewrite Z.sub_0_r. rewrite <- Hwall. reflexivity.
  - intros Hrange. unfold format_item. rewrite Hts.
    repeat match goal with
           | |- context [getitem item ?k] =>
               destruct (getitem item k); cbn [bind]; [|reflexivity]
           end.
    destruct (load_member g "datetime" "datetime"); cbn [bind]; [|reflexivity].
    cbn [replace_Z bind]. rewrite Hplus, Hutc. cbn [bind].
    unfold DT.timestamp. cbn [tzinfo as_utc]. rewrite Z.sub_0_r.
    rewrite Hwall.
    pose proof (millis_floor _ Hrange) as Hfl.
    destruct (Float.truediv_int (DT.wall_us dt) 1000000) as [t|];
      cbn [bind] in Hfl |- *; [|discriminate].
    rewrite Hfl. reflexivity.
Qed.

Lemma explicit_offset_same_as_Z_witness :
  format_item module_globals accepting (bucket (lit "2021-01-01T00:00:00.000+00:00"))
  = format_item module_globals accepting (bucket (lit "2021-01-01T00:00:00.000Z"))
  /\ epoch_millis (lit "2021-01-01T00:00:00.000+00:00") = Some 1609459200000.
Proof.
  destruct (explicit_offset_same_as_Z module_globals accepting
              (bucket (lit "2021-01-01T00:00:00.000+00:00"))
              (bucket (lit "2021-01-01T00:00:00.000Z"))
              (lit "2021-01-01T00:00:00.000")
              (Datetime 2021 1 1 0 0 0 0 None))
    as (_ & _ & Hsame & Hms & _).
  - intros k Hk. unfold bucket, getitem. cbn [dict_lookup].
    destruct (decide (lit "timestamp" = k)) as [E|_]; [congruence | reflexivity].
  - reflexivity.
  - reflexivity.
  - vm_compute. reflexivity.
  - reflexivity.
  - vm_compute. lia.
  - intros H. vm_compute in H. repeat (destruct H as [H|H]; [discriminate H|]).
    exact H.
  - split; [exact Hsame | exact Hms].
Defined.
